(** * The custodial wallet backend (server.js): model and verification

    The server is an Express application whose request handlers are
    [async] functions talking to an Ethereum node through ethers.js.  Each
    handler is embedded as a program of a small free monad: the calls to
    the provider and to the signer are events answered by the node, the
    [try]/[catch] blocks are explicit, and the module-level variable
    [earningsBalance] is a cell of the interpreter.  JavaScript numbers are
    IEEE 754 binary64 floats, here the primitive floats of the kernel;
    [bigint] values are integers of [Z]. *)

From Stdlib Require Import ZArith List String Ascii Bool Lia.
From Stdlib Require Import Floats DecimalString.
Import ListNotations.

Set Implicit Arguments.
Set Warnings "-inexact-float,-register-all".

Local Open Scope string_scope.
Local Open Scope list_scope.

(** ** JavaScript values *)

Module JS.

(** A JavaScript Number. *)
Definition number : Set := float.

(** The values a JSON request body can hold, and [undefined] for a
    property that is absent. *)
Inductive value : Type :=
| Undefined
| Null
| Bool (b : bool)
| Num (n : number)
| Str (s : string)
| Arr (elements : list value)
| Obj (properties : list (string * value)).

(** An [Error] object: the handlers read [error.message] and
    [error.code]. *)
Record error : Type := Error { message : string; code : option string }.

(** A completion: a value, or an exception thrown (a promise fulfilled or
    rejected). *)
Inductive result (X : Type) : Type :=
| Fulfilled (x : X)
| Rejected (e : error).
Arguments Rejected {X} e.

Definition TypeError (msg : string) : error :=
  {| message := msg; code := None |}.

(** [ToBoolean] on numbers: [NaN], [+0] and [-0] are falsy. *)
Definition number_truthy (n : number) : bool :=
  negb (PrimFloat.is_nan n || PrimFloat.is_zero n).

(** [ToBoolean]: what [!v], [v || w] and [if (v)] test. *)
Definition truthy (v : value) : bool :=
  match v with
  | Undefined | Null => false
  | Bool b => b
  | Num n => number_truthy n
  | Str s => negb (String.eqb s "")
  | Arr _ | Obj _ => true
  end.

(** [v || w] on values and on numbers. *)
Definition or (v w : value) : value := if truthy v then v else w.
Definition number_or (n m : number) : number :=
  if number_truthy n then n else m.

(** Property lookup in an object literal parsed from JSON: the object is
    the list of its bindings, and the first binding of a key is the
    property. *)
Fixpoint assoc (k : string) (ps : list (string * value)) : value :=
  match ps with
  | [] => Undefined
  | (k', v) :: ps' => if String.eqb k k' then v else assoc k ps'
  end.

(** Whether an object literal has a property [k] of its own. *)
Fixpoint has_own (k : string) (ps : list (string * value)) : bool :=
  match ps with
  | [] => false
  | (k', _) :: ps' => String.eqb k k' || has_own k ps'
  end.

(** [v[k]] for one of the property names the handlers read; none of them
    is a property of a prototype, so only an object literal has it. *)
Definition get (v : value) (k : string) : value :=
  match v with
  | Obj ps => assoc k ps
  | _ => Undefined
  end.

(** [const { a, b } = v]: destructuring [undefined] or [null] throws. *)
Definition destructure (v : value) : result (string -> value) :=
  match v with
  | Undefined | Null =>
      Rejected (TypeError "Cannot destructure property of undefined or null")
  | _ => Fulfilled (get v)
  end.

(** [z.toString()] on a bigint. *)
Definition bigint_toString (z : Z) : string :=
  NilZero.string_of_int (Z.to_int z).

Fixpoint join (sep : string) (l : list string) : string :=
  match l with
  | [] => ""
  | [s] => s
  | s :: l' => s ++ sep ++ join sep l'
  end.

End JS.
Export JS.

(** ** The primitives of the JavaScript runtime and of ethers.js

    The conversions between strings and numbers, and the functions of the
    [ethers] package, are not code of the server: they are the operations
    of an interface, and the theorems hold for every implementation of
    it.  [Reference] below implements them for evaluation. *)

Class Runtime : Type := {
  (** [ethers.isAddress(v)] *)
  isAddress : value -> bool;
  (** [s.toLowerCase()] *)
  toLowerCase : string -> string;
  (** [parseFloat(s)] on a string *)
  parseFloat_string : string -> number;
  (** [n.toString()] on a number *)
  number_toString : number -> string;
  (** [n.toFixed(2)] *)
  number_toFixed2 : number -> string;
  (** [ethers.formatEther(z)] *)
  formatEther : Z -> string;
  (** [ethers.formatUnits(z, 'gwei')] *)
  formatGwei : Z -> string;
  (** [ethers.parseEther(s)], which throws on a string that is not a
      decimal number of at most 18 decimals *)
  parseEther : string -> result Z
}.

Section Coercions.
Context {R : Runtime}.

(** [ToString].  An array is the join of its elements, [null] and
    [undefined] elements printing as the empty string.  An object
    literal prints as ["[object Object]"] through the [toString] of
    [Object.prototype]; when it has a property [toString] of its own, which
    in a value parsed from JSON is never a function, the conversion finds no
    method that returns a primitive and throws. *)
Fixpoint ToString (v : value) : result string :=
  match v with
  | Undefined => Fulfilled "undefined"
  | Null => Fulfilled "null"
  | Bool true => Fulfilled "true"
  | Bool false => Fulfilled "false"
  | Num n => Fulfilled (number_toString n)
  | Str s => Fulfilled s
  | Arr l =>
      match (fix elements (l : list value) : result (list string) :=
               match l with
               | [] => Fulfilled []
               | e :: l' =>
                   match (match e with
                          | Undefined | Null => Fulfilled ""
                          | _ => ToString e
                          end) with
                   | Fulfilled s =>
                       match elements l' with
                       | Fulfilled ss => Fulfilled (s :: ss)
                       | Rejected err => Rejected err
                       end
                   | Rejected err => Rejected err
                   end
               end) l with
      | Fulfilled ss => Fulfilled (join "," ss)
      | Rejected err => Rejected err
      end
  | Obj ps =>
      if has_own "toString" ps
      then Rejected (TypeError "Cannot convert object to primitive value")
      else Fulfilled "[object Object]"
  end.

(** [parseFloat(v)]: the argument is converted to a string first. *)
Definition parseFloat (v : value) : result number :=
  match ToString v with
  | Fulfilled s => Fulfilled (parseFloat_string s)
  | Rejected e => Rejected e
  end.

(** [v.toString()]: a method call, which throws on [undefined] and
    [null], and on an object whose own [toString] is not a function. *)
Definition method_toString (v : value) : result string :=
  match v with
  | Undefined | Null =>
      Rejected (TypeError "Cannot read properties of undefined (reading 'toString')")
  | _ => ToString v
  end.

(** [v.toLowerCase()]: only a string has the method. *)
Definition method_toLowerCase (v : value) : result string :=
  match v with
  | Str s => Fulfilled (toLowerCase s)
  | _ => Rejected (TypeError "toLowerCase is not a function")
  end.

(** [ethers.formatUnits(g, 'gwei')] where [g] may be [null]. *)
Definition formatUnits_gwei (g : option Z) : result string :=
  match g with
  | Some z => Fulfilled (formatGwei z)
  | None => Rejected (Error "invalid BigNumberish value" (Some "INVALID_ARGUMENT"))
  end.

(** [a * b] on a bigint and a value that may be [null]. *)
Definition bigint_mul (a : Z) (b : option Z) : result Z :=
  match b with
  | Some z => Fulfilled (a * z)%Z
  | None => Rejected (TypeError "Cannot mix BigInt and other types")
  end.

End Coercions.

(** ** The node and the signer

    [provider] is an [ethers.JsonRpcProvider] and [wallet] an
    [ethers.Wallet]: every method the handlers call on them is an event,
    answered by the node with a value or with a rejection. *)

Module Chain.

(** [FeeData]: [gasPrice] is [null] on a network that does not report
    one. *)
Record FeeData : Type := { fee_gasPrice : option Z }.

(** The transaction object the handlers build. *)
Record TransactionRequest : Type := {
  to : value;
  value_wei : Z;
  nonce : number;
  gasLimit : number;
  gasPrice : option Z;
  chainId : number
}.

(** The argument of [provider.estimateGas]. *)
Record EstimateRequest : Type := {
  est_from : string;
  est_to : value;
  est_value : Z
}.

(** [TransactionResponse], as far as the handlers read it. *)
Record TransactionResponse : Type := {
  tx_hash : string;
  tx_from : string;
  tx_to : value;
  tx_value : Z;
  tx_gasPrice : option Z;
  tx_nonce : number;
  tx_blockNumber : value
}.

(** [TransactionReceipt], as far as the handlers read it. *)
Record TransactionReceipt : Type := {
  rc_status : value;
  rc_blockNumber : number;
  rc_gasUsed : Z;
  rc_gasPrice : Z
}.

(** The calls, indexed by the type of what the promise resolves to. *)
Inductive call : Type -> Type :=
| getBalance (address : string) : call Z
| getFeeData : call FeeData
| getTransactionCount (address : string) (blockTag : option string) : call number
| estimateGas (tx : EstimateRequest) : call Z
| getTransaction (hash : string) : call (option TransactionResponse)
| getTransactionReceipt (hash : string) : call (option TransactionReceipt)
| confirmations (receipt : TransactionReceipt) : call number
| signTransaction (tx : TransactionRequest) : call string
| signMessage (message : value) : call string
| broadcastTransaction (signedTx : string) : call TransactionResponse
| wait (tx : TransactionResponse) (confirms : number) : call TransactionReceipt.

(** One call with the node's answer. *)
Inductive entry : Type :=
| Entry {X : Type} (c : call X) (r : result X).

Definition trace : Type := list entry.

(** The node: the answer to the [i]-th call of a request. *)
Definition oracle : Type := nat -> forall X : Type, call X -> result X.

Definition is_getBalance (e : entry) : bool :=
  match e with Entry (getBalance _) _ => true | _ => false end.

(** The transactions given to the signer during a run. *)
Fixpoint signed_requests (t : trace) : list TransactionRequest :=
  match t with
  | [] => []
  | Entry (signTransaction tx) _ :: t' => tx :: signed_requests t'
  | _ :: t' => signed_requests t'
  end.

(** The payloads broadcast during a run. *)
Fixpoint broadcasts (t : trace) : list string :=
  match t with
  | [] => []
  | Entry (broadcastTransaction s) _ :: t' => s :: broadcasts t'
  | _ :: t' => broadcasts t'
  end.

End Chain.
Export Chain.

(** ** Handler programs *)

Module Prog.

(** A handler body: it returns, throws, awaits a call of the node, or
    reads or writes the module variable [earningsBalance]. *)
Inductive prog (A : Type) : Type :=
| Ret (a : A)
| Throw (e : error)
| Await {X : Type} (c : call X) (k : result X -> prog A)
| Load (k : number -> prog A)
| Store (n : number) (k : prog A).
Arguments Throw {A} e.
Arguments Load {A} k.
Arguments Store {A} n k.

Fixpoint bind {A B : Type} (p : prog A) (f : A -> prog B) : prog B :=
  match p with
  | Ret a => f a
  | Throw e => Throw e
  | Await c k => Await c (fun r => bind (k r) f)
  | Load k => Load (fun n => bind (k n) f)
  | Store n k => Store n (bind k f)
  end.

(** [await c]: a rejected promise throws at the [await]. *)
Definition await {X : Type} (c : call X) : prog X :=
  Await c (fun r => match r with
                    | Fulfilled x => Ret x
                    | Rejected e => Throw e
                    end).

(** An expression of the runtime that may throw. *)
Definition eval {X : Type} (r : result X) : prog X :=
  match r with
  | Fulfilled x => Ret x
  | Rejected e => Throw e
  end.

(** [try { p } catch (error) { h error }] *)
Fixpoint try_catch {A : Type} (p : prog A) (h : error -> prog A) : prog A :=
  match p with
  | Ret a => Ret a
  | Throw e => h e
  | Await c k => Await c (fun r => try_catch (k r) h)
  | Load k => Load (fun n => try_catch (k n) h)
  | Store n k => Store n (try_catch k h)
  end.

(** How a handler ends: with a response, or with an exception that left
    it. *)
Inductive outcome (A : Type) : Type :=
| Responded (a : A)
| Escaped (e : error).
Arguments Escaped {A} e.

(** What one run leaves behind. *)
Record final (A : Type) : Type := Final {
  out : outcome A;
  earningsBalance : number;
  calls : trace
}.

(** Running a program against a node, from the [i]-th call on, with
    [earningsBalance = g]. *)
Fixpoint run {A : Type} (o : oracle) (i : nat) (g : number) (p : prog A) : final A :=
  match p with
  | Ret a => Final (Responded a) g []
  | Throw e => Final (Escaped e) g []
  | Await c k =>
      let r := o i _ c in
      let f := run o (S i) g (k r) in
      Final (out f) (earningsBalance f) (Entry c r :: calls f)
  | Load k => run o i g (k g)
  | Store n k => run o i n k
  end.

End Prog.
Export Prog.

Declare Scope prog_scope.
Delimit Scope prog_scope with prog.
Notation "x <- p ;; q" := (bind p (fun x => q))
  (at level 61, p at next level, right associativity) : prog_scope.


(** ** The request handlers of server.js *)

(** What a handler reads of [req]: the parsed JSON body and the [:hash]
    route parameter. *)
Record request : Type := { req_body : value; req_hash : string }.

(** [res.status(s).json(b)], and [res.json(b)], which answers with status
    200: the status and the object handed to [json], before it is
    serialised. *)
Record response : Type := { status : Z; body : list (string * value) }.

Definition json (s : Z) (b : list (string * value)) : response :=
  {| status := s; body := b |}.

(** [error.code] in a response body. *)
Definition code_value (e : error) : value :=
  match code e with Some c => Str c | None => Undefined end.

Definition BACKEND_URL : string := "https://ethers-production.up.railway.app".

Section Server.
Context {R : Runtime}.

(** [wallet.address] *)
Variable wallet_address : string.

Local Open Scope prog_scope.
Local Open Scope float_scope.

(** [n || e] on numbers: [e] is evaluated only when [n] is falsy. *)
Definition or_else (n : number) (e : prog number) : prog number :=
  if number_truthy n then Ret n else e.

(** [app.post('/withdraw', ...)] *)
Definition withdraw (req : request) : prog response :=
  try_catch
    (b <- eval (destructure (req_body req)) ;;
     let toAddress := b "toAddress" in
     let amountETH := b "amountETH" in
     if negb (truthy toAddress) || negb (truthy amountETH) then
       Ret (json 400 [("error", Str "Missing parameters")])
     else if negb (isAddress toAddress) then
       Ret (json 400 [("error", Str "Invalid address")])
     else
       lowered <- eval (method_toLowerCase toAddress) ;;
       if String.eqb lowered (toLowerCase wallet_address) then
         Ret (json 400 [("error", Str "Cannot send to backend wallet")])
       else
         balance <- await (getBalance wallet_address) ;;
         let balanceETH := formatEther balance in
         available <- eval (parseFloat (Str balanceETH)) ;;
         requested <- eval (parseFloat amountETH) ;;
         if available <? requested then
           Ret (json 400 [("error", Str "Insufficient backend balance");
                          ("balance", Str balanceETH)])
         else
           feeData <- await getFeeData ;;
           nonce <- await (getTransactionCount wallet_address (Some "pending")) ;;
           amountString <- eval (method_toString amountETH) ;;
           value <- eval (parseEther amountString) ;;
           let tx := {| to := toAddress;
                        value_wei := value;
                        nonce := nonce;
                        gasLimit := 21000;
                        gasPrice := fee_gasPrice feeData;
                        chainId := 1 |} in
           _ <- eval (formatUnits_gwei (fee_gasPrice feeData)) ;;
           signedTx <- await (signTransaction tx) ;;
           txResponse <- await (broadcastTransaction signedTx) ;;
           receipt <- await (wait txResponse 1) ;;
           Ret (json 200 [("success", Bool true);
                          ("txHash", Str (tx_hash txResponse));
                          ("from", Str wallet_address);
                          ("to", toAddress);
                          ("amount", amountETH);
                          ("blockNumber", Num (rc_blockNumber receipt));
                          ("gasUsed", Str (bigint_toString (rc_gasUsed receipt)));
                          ("effectiveGasPrice", Str (bigint_toString (rc_gasPrice receipt)))]))
    (fun error =>
       Ret (json 500 [("error", Str (message error)); ("code", code_value error)])).

(** [app.post('/sign-message', ...)] *)
Definition sign_message (req : request) : prog response :=
  try_catch
    (b <- eval (destructure (req_body req)) ;;
     let message := b "message" in
     signature <- await (signMessage message) ;;
     Ret (json 200 [("message", message);
                    ("signature", Str signature);
                    ("signer", Str wallet_address)]))
    (fun error => Ret (json 500 [("error", Str (message error))])).

(** [app.get('/transaction/:hash', ...)] *)
Definition transaction (req : request) : prog response :=
  try_catch
    (let hash := req_hash req in
     tx <- await (getTransaction hash) ;;
     receipt <- await (getTransactionReceipt hash) ;;
     let transaction_json :=
       match tx with
       | Some tx =>
           Obj [("hash", Str (tx_hash tx));
                ("from", Str (tx_from tx));
                ("to", tx_to tx);
                ("value", Str (formatEther (tx_value tx)));
                ("gasPrice", match tx_gasPrice tx with
                             | Some g => Str (bigint_toString g)
                             | None => Undefined
                             end);
                ("nonce", Num (tx_nonce tx));
                ("blockNumber", tx_blockNumber tx)]
       | None => Null
       end in
     receipt_json <-
       match receipt with
       | Some receipt =>
           n <- await (confirmations receipt) ;;
           Ret (Obj [("status", rc_status receipt);
                     ("blockNumber", Num (rc_blockNumber receipt));
                     ("gasUsed", Str (bigint_toString (rc_gasUsed receipt)));
                     ("confirmations", Num n)])
       | None => Ret Null
       end ;;
     Ret (json 200 [("transaction", transaction_json); ("receipt", receipt_json)]))
    (fun error => Ret (json 500 [("error", Str (message error))])).

(** [app.get('/balance', ...)] *)
Definition balance (req : request) : prog response :=
  try_catch
    (balance <- await (getBalance wallet_address) ;;
     nonce <- await (getTransactionCount wallet_address None) ;;
     feeData <- await getFeeData ;;
     gwei <- eval (formatUnits_gwei (fee_gasPrice feeData)) ;;
     Ret (json 200 [("address", Str wallet_address);
                    ("balance", Str (formatEther balance));
                    ("nonce", Num nonce);
                    ("gasPrice", Str (gwei ++ " gwei"))]))
    (fun error => Ret (json 500 [("error", Str (message error))])).

(** [app.post('/estimate-gas', ...)] *)
Definition estimate_gas (req : request) : prog response :=
  try_catch
    (b <- eval (destructure (req_body req)) ;;
     let toAddress := b "toAddress" in
     let amountETH := b "amountETH" in
     amountString <- eval (method_toString amountETH) ;;
     value <- eval (parseEther amountString) ;;
     gasEstimate <- await (estimateGas {| est_from := wallet_address;
                                          est_to := toAddress;
                                          est_value := value |}) ;;
     feeData <- await getFeeData ;;
     gasCost <- eval (bigint_mul gasEstimate (fee_gasPrice feeData)) ;;
     gwei <- eval (formatUnits_gwei (fee_gasPrice feeData)) ;;
     cost <- eval (parseFloat (Str (formatEther gasCost))) ;;
     Ret (json 200 [("gasLimit", Str (bigint_toString gasEstimate));
                    ("gasPrice", Str (gwei ++ " gwei"));
                    ("totalCost", Str (formatEther gasCost ++ " ETH"));
                    ("totalCostUSD", Str (number_toFixed2 (cost * 3450)))]))
    (fun error => Ret (json 500 [("error", Str (message error))])).

(** [app.post('/credit-earnings', ...)]: [earningsBalance += ...] reads the
    variable, evaluates the amount, adds and writes the sum back. *)
Definition credit_earnings (req : request) : prog response :=
  try_catch
    (b <- eval (destructure (req_body req)) ;;
     let amountUSD := b "amountUSD" in
     Load (fun earningsBalance =>
     amount <- eval (parseFloat amountUSD) ;;
     Store (earningsBalance + number_or amount 0)
     (Load (fun earningsBalance =>
     Ret (json 200 [("success", Bool true); ("newBalance", Num earningsBalance)])))))
    (fun error => Ret (json 500 [("error", Str (message error))])).

(** [app.post('/convert-earnings-to-eth', ...)] *)
Definition convert_earnings_to_eth (req : request) : prog response :=
  try_catch
    (b <- eval (destructure (req_body req)) ;;
     let amountETH := b "amountETH" in
     let amountUSD := b "amountUSD" in
     let destination := or (or (b "treasury") (b "to")) (b "toAddress") in
     eth <- eval (parseFloat amountETH) ;;
     ethAmount <- or_else eth (usd <- eval (parseFloat amountUSD) ;; Ret (usd / 3450)) ;;
     if negb (truthy destination) then
       Ret (json 400 [("error", Str "Missing destination address")])
     else
       balance <- await (getBalance wallet_address) ;;
       balanceETH <- eval (parseFloat (Str (formatEther balance))) ;;
       if balanceETH <? ethAmount + 0.002 then
         Ret (json 400 [("error", Str "Insufficient backend balance for conversion");
                        ("balance", Num balanceETH);
                        ("required", Num (ethAmount + 0.002))])
       else
         feeData <- await getFeeData ;;
         nonce <- await (getTransactionCount wallet_address (Some "pending")) ;;
         value <- eval (parseEther (number_toString ethAmount)) ;;
         let tx := {| to := destination;
                      value_wei := value;
                      nonce := nonce;
                      gasLimit := 21000;
                      gasPrice := fee_gasPrice feeData;
                      chainId := 1 |} in
         signedTx <- await (signTransaction tx) ;;
         txResponse <- await (broadcastTransaction signedTx) ;;
         receipt <- await (wait txResponse 1) ;;
         Ret (json 200 [("success", Bool true);
                        ("txHash", Str (tx_hash txResponse));
                        ("from", Str wallet_address);
                        ("to", destination);
                        ("amount", Num ethAmount);
                        ("amountUSD", Num (ethAmount * 3450));
                        ("blockNumber", Num (rc_blockNumber receipt));
                        ("gasUsed", Str (bigint_toString (rc_gasUsed receipt)))]))
    (fun error => Ret (json 500 [("error", Str (message error))])).

(** [app.post('/fund-from-earnings', ...)] *)
Definition fund_from_earnings (req : request) : prog response :=
  try_catch
    (b <- eval (destructure (req_body req)) ;;
     let amountETH := b "amountETH" in
     let amountUSD := b "amountUSD" in
     let destination :=
       or (or (or (b "treasury") (b "to")) (b "toAddress")) (Str wallet_address) in
     eth <- eval (parseFloat amountETH) ;;
     converted <- or_else eth (usd <- eval (parseFloat amountUSD) ;; Ret (usd / 3450)) ;;
     let ethAmount := number_or converted 0.01 in
     balance <- await (getBalance wallet_address) ;;
     balanceETH <- eval (parseFloat (Str (formatEther balance))) ;;
     if balanceETH <? ethAmount + 0.002 then
       Ret (json 400 [("error", Str "Insufficient backend balance");
                      ("balance", Num balanceETH)])
     else
       feeData <- await getFeeData ;;
       nonce <- await (getTransactionCount wallet_address (Some "pending")) ;;
       value <- eval (parseEther (number_toString ethAmount)) ;;
       let tx := {| to := destination;
                    value_wei := value;
                    nonce := nonce;
                    gasLimit := 21000;
                    gasPrice := fee_gasPrice feeData;
                    chainId := 1 |} in
       signedTx <- await (signTransaction tx) ;;
       txResponse <- await (broadcastTransaction signedTx) ;;
       receipt <- await (wait txResponse 1) ;;
       Ret (json 200 [("success", Bool true);
                      ("txHash", Str (tx_hash txResponse));
                      ("from", Str wallet_address);
                      ("to", destination);
                      ("amount", Num ethAmount);
                      ("blockNumber", Num (rc_blockNumber receipt))]))
    (fun error => Ret (json 500 [("error", Str (message error))])).

(** [app.post('/withdraw-profits-to-treasury', ...)]: the body is
    destructured before the [try] block is entered. *)
Definition withdraw_profits_to_treasury (req : request) : prog response :=
  b <- eval (destructure (req_body req)) ;;
  let amountETH := b "amountETH" in
  let percentage := b "percentage" in
  let destination := or (or (b "treasury") (b "to")) (b "toAddress") in
  try_catch
    (balance <- await (getBalance wallet_address) ;;
     balanceETH <- eval (parseFloat (Str (formatEther balance))) ;;
     eth <- eval (parseFloat amountETH) ;;
     let ethAmount := number_or eth 0.01 in
     ethAmount <- (if truthy percentage
                   then share <- eval (parseFloat percentage) ;;
                        Ret (balanceETH * share / 100 - 0.002)
                   else Ret ethAmount) ;;
     if balanceETH <? ethAmount + 0.002 then
       Ret (json 400 [("error", Str "Insufficient balance")])
     else
       feeData <- await getFeeData ;;
       nonce <- await (getTransactionCount wallet_address (Some "pending")) ;;
       value <- eval (parseEther (number_toString ethAmount)) ;;
       let tx := {| to := destination;
                    value_wei := value;
                    nonce := nonce;
                    gasLimit := 21000;
                    gasPrice := fee_gasPrice feeData;
                    chainId := 1 |} in
       signedTx <- await (signTransaction tx) ;;
       txResponse <- await (broadcastTransaction signedTx) ;;
       receipt <- await (wait txResponse 1) ;;
       Ret (json 200 [("success", Bool true);
                      ("txHash", Str (tx_hash txResponse));
                      ("amount", Num ethAmount);
                      ("blockNumber", Num (rc_blockNumber receipt))]))
    (fun error => Ret (json 500 [("error", Str (message error))])).

(** [app.post('/claim-mev-profits', ...)]: the body is destructured, and
    the amount resolved, before the [try] block is entered. *)
Definition claim_mev_profits (req : request) : prog response :=
  b <- eval (destructure (req_body req)) ;;
  let amountETH := b "amountETH" in
  let destination := or (or (b "to") (b "toAddress")) (b "treasury") in
  eth <- eval (parseFloat amountETH) ;;
  let ethAmount := number_or eth 0.01 in
  try_catch
    (balance <- await (getBalance wallet_address) ;;
     balanceETH <- eval (parseFloat (Str (formatEther balance))) ;;
     if balanceETH <? ethAmount + 0.002 then
       Ret (json 400 [("error", Str "Insufficient balance")])
     else
       feeData <- await getFeeData ;;
       nonce <- await (getTransactionCount wallet_address (Some "pending")) ;;
       value <- eval (parseEther (number_toString ethAmount)) ;;
       let tx := {| to := destination;
                    value_wei := value;
                    nonce := nonce;
                    gasLimit := 21000;
                    gasPrice := fee_gasPrice feeData;
                    chainId := 1 |} in
       signedTx <- await (signTransaction tx) ;;
       txResponse <- await (broadcastTransaction signedTx) ;;
       receipt <- await (wait txResponse 1) ;;
       Ret (json 200 [("success", Bool true);
                      ("txHash", Str (tx_hash txResponse));
                      ("amount", Num ethAmount);
                      ("blockNumber", Num (rc_blockNumber receipt))]))
    (fun error => Ret (json 500 [("error", Str (message error))])).

(** [app.get('/earnings', ...)]: no [try] block. *)
Definition earnings (req : request) : prog response :=
  balance <- await (getBalance wallet_address) ;;
  Load (fun earningsBalance =>
  balanceETH <- eval (parseFloat (Str (formatEther balance))) ;;
  Ret (json 200 [("earningsUSD", Num earningsBalance);
                 ("backendBalanceETH", Str (formatEther balance));
                 ("backendBalanceUSD", Num (balanceETH * 3450))])).

(** [app.get('/status', ...)] *)
Definition status_handler (req : request) : prog response :=
  Ret (json 200 [("status", Str "online");
                 ("wallet", Str wallet_address);
                 ("endpoints", Arr [Str "/withdraw";
                                    Str "/convert-earnings-to-eth";
                                    Str "/fund-from-earnings";
                                    Str "/withdraw-profits-to-treasury";
                                    Str "/claim-mev-profits";
                                    Str "/credit-earnings";
                                    Str "/earnings";
                                    Str "/balance"])]).

(** [app.get('/health', ...)] *)
Definition health (req : request) : prog response :=
  Ret (json 200 [("status", Str "online");
                 ("wallet", Str wallet_address);
                 ("ethersVersion", Str "6.9.0");
                 ("backendUrl", Str BACKEND_URL)]).

(** The routes registered on [app]. *)
Inductive route : Set :=
| POST_withdraw
| POST_sign_message
| GET_transaction
| GET_balance
| POST_estimate_gas
| POST_credit_earnings
| POST_convert_earnings_to_eth
| POST_fund_from_earnings
| POST_withdraw_profits_to_treasury
| POST_claim_mev_profits
| GET_earnings
| GET_status
| GET_health.

Definition handler (r : route) : request -> prog response :=
  match r with
  | POST_withdraw => withdraw
  | POST_sign_message => sign_message
  | GET_transaction => transaction
  | GET_balance => balance
  | POST_estimate_gas => estimate_gas
  | POST_credit_earnings => credit_earnings
  | POST_convert_earnings_to_eth => convert_earnings_to_eth
  | POST_fund_from_earnings => fund_from_earnings
  | POST_withdraw_profits_to_treasury => withdraw_profits_to_treasury
  | POST_claim_mev_profits => claim_mev_profits
  | GET_earnings => earnings
  | GET_status => status_handler
  | GET_health => health
  end.

Definition route_eq_dec (r r' : route) : {r = r'} + {r <> r'}.
Proof. decide equality. Defined.

(** One request served against a node [o], with [earningsBalance = g]
    when it arrives. *)
Definition serve (o : oracle) (g : number) (r : route) (req : request) : final response :=
  run o 0 g (handler r req).

End Server.

(** ** The server over its lifetime *)

(** [let earningsBalance = 0;] *)
Definition earningsBalance_initial : number := 0%float.

(** One request as it arrives: the route, the request, and how the node
    answers while it is served. *)
Record arrival : Type := { node_of : oracle; route_of : route; request_of : request }.

(** [earningsBalance] after the requests of [l] have been served one after
    the other, starting from [g]. *)
Fixpoint serve_all {R : Runtime} (w : string) (g : number) (l : list arrival) : number :=
  match l with
  | [] => g
  | a :: l' =>
      serve_all w (earningsBalance (serve w (node_of a) g (route_of a) (request_of a))) l'
  end.

(** [0 <= n]: true of both zeros, of the positive numbers and of
    [Infinity], false of the negative numbers and of [NaN]. *)
Definition nonneg (n : number) : bool := (0 <=? n)%float.

(** [nonneg] on the specification of binary64. *)
Definition sf_nonneg (x : spec_float) : bool :=
  match x with
  | S754_zero _ => true
  | S754_finite s _ _ => negb s
  | S754_infinity s => negb s
  | S754_nan => false
  end.

(** What [credit-earnings] adds for a request: [parseFloat(amountUSD) || 0],
    when the body can be destructured and the amount converted to a
    string. *)
Definition credited {R : Runtime} (req : request) : option number :=
  match destructure (req_body req) with
  | Fulfilled b =>
      match parseFloat (b "amountUSD") with
      | Fulfilled amount => Some (number_or amount 0%float)
      | Rejected _ => None
      end
  | Rejected _ => None
  end.

(** A request that credits nothing negative. *)
Definition credits_nonneg {R : Runtime} (req : request) : Prop :=
  forall amount : number, credited req = Some amount -> nonneg amount = true.

(** [earningsBalance] after a credit. *)
Definition credit (g : number) (c : option number) : number :=
  match c with
  | Some amount => (g + amount)%float
  | None => g
  end.


(** A program that never writes [earningsBalance]. *)
Fixpoint read_only {A : Type} (p : prog A) : Prop :=
  match p with
  | Ret _ | Throw _ => True
  | Await _ k => forall r, read_only (k r)
  | Load k => forall n, read_only (k n)
  | Store _ _ => False
  end.

(** A program that hands to the signer only transactions that satisfy
    [P]. *)
Fixpoint signs_only {A : Type} (P : TransactionRequest -> Prop) (p : prog A) : Prop :=
  match p with
  | Ret _ | Throw _ => True
  | Await c k =>
      match c with signTransaction tx => P tx | _ => True end /\
      forall r, signs_only P (k r)
  | Load k => forall n, signs_only P (k n)
  | Store _ k => signs_only P k
  end.

(** A program that makes no call. *)
Fixpoint silent {A : Type} (p : prog A) : Prop :=
  match p with
  | Ret _ | Throw _ => True
  | Await _ _ => False
  | Load k => forall n, silent (k n)
  | Store _ k => silent k
  end.

(** A program that has thrown. *)
Definition thrown {A : Type} (p : prog A) : Prop :=
  match p with
  | Throw _ => True
  | _ => False
  end.

(** A program in which a rejected call throws at once. *)
Fixpoint strict {A : Type} (p : prog A) : Prop :=
  match p with
  | Ret _ | Throw _ => True
  | Await _ k => (forall e, thrown (k (Rejected e))) /\ forall x, strict (k (Fulfilled x))
  | Load k => forall n, strict (k n)
  | Store _ k => strict k
  end.

(** A program that makes no call after a rejected one. *)
Fixpoint halting {A : Type} (p : prog A) : Prop :=
  match p with
  | Ret _ | Throw _ => True
  | Await _ k => (forall e, silent (k (Rejected e))) /\ forall x, halting (k (Fulfilled x))
  | Load k => forall n, halting (k n)
  | Store _ k => halting k
  end.

(** A trace in which a rejected call, if there is one, is the last
    call. *)
Fixpoint stops_at_rejection (t : trace) : bool :=
  match t with
  | [] => true
  | Entry _ (Rejected _) :: t' => match t' with [] => true | _ => false end
  | Entry _ (Fulfilled _) :: t' => stops_at_rejection t'
  end.

(** A plain value transfer on mainnet: gas limit 21000, chain id 1. *)
Definition plain_transfer (tx : TransactionRequest) : Prop :=
  gasLimit tx = 21000%float /\ chainId tx = 1%float.

(** A program that ends with a response on every node: no exception
    leaves it. *)
Definition responds {A : Type} (p : prog A) : Prop :=
  forall (o : oracle) (i : nat) (g : number),
  exists a : A, out (run o i g p) = Responded a.


(** ** Runs, seen from outside *)

(** The routes that move funds. *)
Definition transfer_route (r : route) : bool :=
  match r with
  | POST_withdraw
  | POST_convert_earnings_to_eth
  | POST_fund_from_earnings
  | POST_withdraw_profits_to_treasury
  | POST_claim_mev_profits => true
  | _ => false
  end.

(** The payloads the signer returned for the transactions it was given. *)
Fixpoint signed_payloads (t : trace) : list string :=
  match t with
  | [] => []
  | Entry (signTransaction _) (Fulfilled s) :: t' => s :: signed_payloads t'
  | _ :: t' => signed_payloads t'
  end.

(** The error of the rejected call of a run, when there is one. *)
Fixpoint rejection (t : trace) : option error :=
  match t with
  | [] => None
  | Entry _ (Rejected e) :: _ => Some e
  | Entry _ (Fulfilled _) :: t' => rejection t'
  end.


(** [const destination = ...]: the destination each route reads from the
    body. *)
Definition resolved_destination (w : string) (r : route) (body : value) : value :=
  match r with
  | POST_withdraw => get body "toAddress"
  | POST_convert_earnings_to_eth
  | POST_withdraw_profits_to_treasury =>
      or (or (get body "treasury") (get body "to")) (get body "toAddress")
  | POST_fund_from_earnings =>
      or (or (or (get body "treasury") (get body "to")) (get body "toAddress")) (Str w)
  | POST_claim_mev_profits =>
      or (or (get body "to") (get body "toAddress")) (get body "treasury")
  | _ => Undefined
  end.

(** The calls of a submission that went through, and the response that
    reports it: the balance of the wallet, the fee data and the pending
    nonce, the signature of a transaction that carries this nonce and this
    gas price, the broadcast of the signed payload and the wait for one
    confirmation of the transaction that was broadcast. *)
Definition submitted (w : string) (t : trace) (r : response) : Prop :=
  exists (b : Z) (fd : FeeData) (n : number) (tx : TransactionRequest) (s : string)
         (txr : TransactionResponse) (rc : TransactionReceipt),
    t = [Entry (getBalance w) (Fulfilled b);
         Entry getFeeData (Fulfilled fd);
         Entry (getTransactionCount w (Some "pending")) (Fulfilled n);
         Entry (signTransaction tx) (Fulfilled s);
         Entry (broadcastTransaction s) (Fulfilled txr);
         Entry (wait txr 1%float) (Fulfilled rc)] /\
    nonce tx = n /\
    gasPrice tx = fee_gasPrice fd /\
    assoc "txHash" (body r) = Str (tx_hash txr) /\
    assoc "blockNumber" (body r) = Num (rc_blockNumber rc).

(** What one arrival adds to [earningsBalance]: what it credits when it
    is a credit request, nothing otherwise. *)
Definition credit_of {R : Runtime} (a : arrival) : option number :=
  match route_of a with
  | POST_credit_earnings => credited (request_of a)
  | _ => None
  end.

(** What holds of a run, computed along the program: [post] is asked of
    the outcome, of [earningsBalance] and of the calls made. *)
Fixpoint wp {A : Type} (o : oracle) (i : nat) (g : number) (p : prog A)
  (post : outcome A -> number -> trace -> Prop) : Prop :=
  match p with
  | Ret a => post (Responded a) g []
  | Throw e => post (Escaped e) g []
  | Await c k =>
      wp o (S i) g (k (o i _ c)) (fun x n t => post x n (Entry c (o i _ c) :: t))
  | Load k => wp o i g (k g) post
  | Store n k => wp o i n k post
  end.

(** ** The transfer core of the specification

    The specification describes one operation, [transfer], whose variants
    differ in how the destination and the amount are resolved.  [submit]
    is its construction and submission step, [transfer] the wrapper with
    the one precondition the treasury endpoints enforce, and each
    [.._policy] the resolution of one endpoint.  These definitions follow
    the specification; the handlers above follow the source. *)

Section Core.
Context {R : Runtime}.
Variable wallet_address : string.

Local Open Scope prog_scope.
Local Open Scope float_scope.


(** How an endpoint resolves the destination and the amount (the amount
    may depend on the balance), and how it words its responses. *)
Record policy : Type := {
  destination : value;
  amount_of : number -> prog number;
  missing_destination : option response;
  insufficient : number -> number -> response;
  succeeded : number -> TransactionResponse -> TransactionReceipt -> response
}.




Definition convert_policy (b : string -> value) (ethAmount : number) : policy := {|
  destination := or (or (b "treasury") (b "to")) (b "toAddress");
  amount_of := fun _ => Ret ethAmount;
  missing_destination := Some (json 400 [("error", Str "Missing destination address")]);
  insufficient := fun balanceETH ethAmount =>
    json 400 [("error", Str "Insufficient backend balance for conversion");
              ("balance", Num balanceETH);
              ("required", Num (ethAmount + 0.002))];
  succeeded := fun ethAmount txResponse receipt =>
    json 200 [("success", Bool true);
              ("txHash", Str (tx_hash txResponse));
              ("from", Str wallet_address);
              ("to", or (or (b "treasury") (b "to")) (b "toAddress"));
              ("amount", Num ethAmount);
              ("amountUSD", Num (ethAmount * 3450));
              ("blockNumber", Num (rc_blockNumber receipt));
              ("gasUsed", Str (bigint_toString (rc_gasUsed receipt)))]
|}.

Definition fund_policy (b : string -> value) (ethAmount : number) : policy := {|
  destination :=
    or (or (or (b "treasury") (b "to")) (b "toAddress")) (Str wallet_address);
  amount_of := fun _ => Ret ethAmount;
  missing_destination := None;
  insufficient := fun balanceETH _ =>
    json 400 [("error", Str "Insufficient backend balance"); ("balance", Num balanceETH)];
  succeeded := fun ethAmount txResponse receipt =>
    json 200 [("success", Bool true);
              ("txHash", Str (tx_hash txResponse));
              ("from", Str wallet_address);
              ("to", or (or (or (b "treasury") (b "to")) (b "toAddress"))
                        (Str wallet_address));
              ("amount", Num ethAmount);
              ("blockNumber", Num (rc_blockNumber receipt))]
|}.

Definition short_success (ethAmount : number)
  (txResponse : TransactionResponse) (receipt : TransactionReceipt) : response :=
  json 200 [("success", Bool true);
            ("txHash", Str (tx_hash txResponse));
            ("amount", Num ethAmount);
            ("blockNumber", Num (rc_blockNumber receipt))].

Definition profits_policy (b : string -> value) : policy := {|
  destination := or (or (b "treasury") (b "to")) (b "toAddress");
  amount_of := fun balanceETH =>
    eth <- eval (parseFloat (b "amountETH")) ;;
    if truthy (b "percentage")
    then share <- eval (parseFloat (b "percentage")) ;;
         Ret (balanceETH * share / 100 - 0.002)
    else Ret (number_or eth 0.01);
  missing_destination := None;
  insufficient := fun _ _ => json 400 [("error", Str "Insufficient balance")];
  succeeded := short_success
|}.

Definition claim_policy (b : string -> value) (ethAmount : number) : policy := {|
  destination := or (or (b "to") (b "toAddress")) (b "treasury");
  amount_of := fun _ => Ret ethAmount;
  missing_destination := None;
  insufficient := fun _ _ => json 400 [("error", Str "Insufficient balance")];
  succeeded := short_success
|}.


End Core.

(** ** A reference runtime

    An implementation of [Runtime] for evaluating the handlers on concrete
    requests: [parseFloat] and Number::toString with the correct rounding
    of ECMAScript, and the fixed-point conversions of ethers 6. *)

Module Reference.

Local Open Scope Z_scope.


(** *** Characters *)

Definition is_digit (c : ascii) : bool :=
  let n := nat_of_ascii c in (48 <=? n)%nat && (n <=? 57)%nat.

Definition is_lower_hex (c : ascii) : bool :=
  let n := nat_of_ascii c in (97 <=? n)%nat && (n <=? 102)%nat.

Definition is_upper_hex (c : ascii) : bool :=
  let n := nat_of_ascii c in (65 <=? n)%nat && (n <=? 70)%nat.

Definition is_hex (c : ascii) : bool :=
  is_digit c || is_lower_hex c || is_upper_hex c.

Definition is_space (c : ascii) : bool :=
  let n := nat_of_ascii c in
  ((9 <=? n)%nat && (n <=? 13)%nat) || (n =? 32)%nat.

Definition digit_value (c : ascii) : Z := Z.of_nat (nat_of_ascii c) - 48.

Definition lower_char (c : ascii) : ascii :=
  let n := nat_of_ascii c in
  if (65 <=? n)%nat && (n <=? 90)%nat then ascii_of_nat (n + 32) else c.

Fixpoint lower (s : string) : string :=
  match s with
  | EmptyString => EmptyString
  | String c s' => String (lower_char c) (lower s')
  end.

Fixpoint forallb_string (f : ascii -> bool) (s : string) : bool :=
  match s with
  | EmptyString => true
  | String c s' => f c && forallb_string f s'
  end.

Fixpoint existsb_string (f : ascii -> bool) (s : string) : bool :=
  match s with
  | EmptyString => false
  | String c s' => f c || existsb_string f s'
  end.

(** The longest prefix of decimal digits, and the rest. *)
Fixpoint span_digits (s : string) : string * string :=
  match s with
  | String c s' =>
      if is_digit c
      then let '(d, r) := span_digits s' in (String c d, r)
      else (EmptyString, s)
  | EmptyString => (EmptyString, EmptyString)
  end.

(** The integer a string of decimal digits denotes. *)
Fixpoint digits_value (acc : Z) (s : string) : Z :=
  match s with
  | EmptyString => acc
  | String c s' => digits_value (10 * acc + digit_value c) s'
  end.

Definition strip_prefix (p s : string) : option string :=
  if String.prefix p s
  then Some (String.substring (String.length p) (String.length s - String.length p) s)
  else None.

(** *** Correct rounding of a ratio of integers to binary64 *)

Definition round_ratio (neg : bool) (n d : positive) : float :=
  let '(mz, ez, lz) := SFdiv_core_binary prec emax (Zpos n) 0 (Zpos d) 0 in
  SF2Prim (binary_round_aux prec emax neg mz ez lz).

(** [(-1)^neg * m * 10^e], rounded. *)
Definition of_decimal (neg : bool) (m e : Z) : float :=
  match m with
  | Zpos p =>
      if 400 <? e then SF2Prim (S754_infinity neg)
      else if e + Z.of_nat (String.length (NilZero.string_of_int (Z.to_int m))) <? -400
      then SF2Prim (S754_zero neg)
      else if 0 <=? e then round_ratio neg (p * Z.to_pos (10 ^ e)) 1
      else round_ratio neg p (Z.to_pos (10 ^ (- e)))
  | _ => SF2Prim (S754_zero neg)
  end.

(** *** [parseFloat] on strings *)

Fixpoint trim_start (s : string) : string :=
  match s with
  | String c s' => if is_space c then trim_start s' else s
  | EmptyString => EmptyString
  end.

(** The exponent part [e[+-]digits] at the head of [s], when complete. *)
Definition exponent_part (s : string) : Z :=
  match s with
  | String c s' =>
      if Ascii.eqb c "e" || Ascii.eqb c "E" then
        let '(neg, s'') :=
          match s' with
          | String "-" t => (true, t)
          | String "+" t => (false, t)
          | _ => (false, s')
          end in
        let '(d, _) := span_digits s'' in
        match d with
        | EmptyString => 0
        | _ => if neg then - digits_value 0 d else digits_value 0 d
        end
      else 0
  | EmptyString => 0
  end.

Definition decimal_parseFloat (s : string) : float :=
  let s := trim_start s in
  let '(neg, s) :=
    match s with
    | String "-" t => (true, t)
    | String "+" t => (false, t)
    | _ => (false, s)
    end in
  if String.prefix "Infinity" s then SF2Prim (S754_infinity neg)
  else
    let '(whole, r) := span_digits s in
    let '(frac, r) :=
      match r with
      | String "." t => span_digits t
      | _ => (EmptyString, r)
      end in
    match whole, frac with
    | EmptyString, EmptyString => nan
    | _, _ =>
        of_decimal neg (digits_value 0 (whole ++ frac)%string)
                   (exponent_part r - Z.of_nat (String.length frac))
    end.


(** *** Printing numbers *)

Definition Z_digits (z : Z) : string := NilZero.string_of_int (Z.to_int z).

Fixpoint zeros (n : nat) : string :=
  match n with
  | O => EmptyString
  | S n' => String "0" (zeros n')
  end.

(** A positive rational [num/den] against a power of ten. *)
Definition lt_pow10 (num den : Z) (n : Z) : bool :=
  if 0 <=? n then num <? 10 ^ n * den else num * 10 ^ (- n) <? den.

(** The [n] with [10^(n-1) <= num/den < 10^n], searched upwards from an
    estimate below it. *)
Fixpoint magnitude_from (fuel : nat) (num den n : Z) : Z :=
  match fuel with
  | O => n
  | S fuel' => if lt_pow10 num den n then n else magnitude_from fuel' num den (n + 1)
  end.

Definition magnitude (num den : Z) : Z :=
  let est := ((Z.log2 num - Z.log2 den - 1) * 30103) / 100000 - 1 in
  magnitude_from 8 num den est.

(** [num/den * 10^j] as a ratio. *)
Definition scale10 (num den j : Z) : Z * Z :=
  if 0 <=? j then (num * 10 ^ j, den) else (num, den * 10 ^ (- j)).

(** Whether [s * 10^j] rounds to [x]. *)
Definition rounds_to (x : float) (s j : Z) : bool :=
  PrimFloat.eqb (of_decimal false s j) x.

(** The digits [s] (as an integer of [k] digits) and the exponent [n] of
    Number::toString: the least [k] for which some [s * 10^(n-k)] rounds
    to [x], and among them the closest to [x]. *)
Fixpoint shortest (fuel : nat) (x : float) (num den n k : Z) : Z * Z * Z :=
  let '(p, q) := scale10 num den (k - n) in
  let lo := p / q in
  let hi := lo + 1 in
  let ok_lo := (10 ^ (k - 1) <=? lo) && rounds_to x lo (n - k) in
  let ok_hi := rounds_to x hi (n - k) in
  let pick s := if s =? 10 ^ k then (10 ^ (k - 1), k, n + 1) else (s, k, n) in
  match fuel with
  | O => pick lo
  | S fuel' =>
      if ok_lo && ok_hi then
        (* both round to x: the closer one, the even one on a tie *)
        match (2 * p ?= (lo + hi) * q) with
        | Lt => pick lo
        | Gt => pick hi
        | Eq => if Z.even lo then pick lo else pick hi
        end
      else if ok_lo then pick lo
      else if ok_hi then pick hi
      else shortest fuel' x num den n (k + 1)
  end.

Definition format_digits (s k n : Z) : string :=
  let d := Z_digits s in
  if (k <=? n) && (n <=? 21) then (d ++ zeros (Z.to_nat (n - k)))%string
  else if (0 <? n) && (n <=? 21) then
    (String.substring 0 (Z.to_nat n) d ++ "." ++
     String.substring (Z.to_nat n) (Z.to_nat (k - n)) d)%string
  else if (-6 <? n) && (n <=? 0) then ("0." ++ zeros (Z.to_nat (- n)) ++ d)%string
  else
    let e := n - 1 in
    let es := ((if (e <? 0)%Z then "-" else "+") ++ Z_digits (Z.abs e))%string in
    if k =? 1 then (d ++ "e" ++ es)%string
    else (String.substring 0 1 d ++ "." ++
          String.substring 1 (Z.to_nat (k - 1)) d ++ "e" ++ es)%string.

(** The value of a finite non-zero float as a ratio. *)
Definition ratio_of (m : positive) (e : Z) : Z * Z :=
  if 0 <=? e then (Zpos m * 2 ^ e, 1) else (Zpos m, 2 ^ (- e)).

Definition shortest_toString (x : float) : string :=
  match Prim2SF x with
  | S754_nan => "NaN"
  | S754_zero _ => "0"
  | S754_infinity neg => if neg then "-Infinity" else "Infinity"
  | S754_finite neg m e =>
      let '(num, den) := ratio_of m e in
      let n := magnitude num den in
      let '(s, k, n) := shortest 17 (PrimFloat.abs x) num den n 1 in
      ((if neg then "-" else "") ++ format_digits s k n)%string
  end.

(** [x.toFixed(2)] *)
Definition rounded_toFixed2 (x : float) : string :=
  match Prim2SF x with
  | S754_nan => "NaN"
  | S754_infinity _ => shortest_toString x
  | S754_zero neg => "0.00"
  | S754_finite neg m e =>
      let '(num, den) := ratio_of m e in
      if negb (lt_pow10 num den 21) then shortest_toString x
      else
        (* the integer closest to 100 * x, the larger one on a tie *)
        let n := (2 * 100 * num + den) / (2 * den) in
        let d := Z_digits n in
        let d := (zeros (3 - String.length d) ++ d)%string in
        let w := (String.length d - 2)%nat in
        ((if neg then "-" else "") ++
         String.substring 0 w d ++ "." ++ String.substring w 2 d)%string
  end.

(** *** ethers: fixed-point strings *)

Fixpoint strip_zeros_rev (s : list ascii) : list ascii :=
  match s with
  | "0"%char :: s' => strip_zeros_rev s'
  | _ => s
  end.

Definition strip_trailing_zeros (s : string) : string :=
  string_of_list_ascii (rev (strip_zeros_rev (rev (list_ascii_of_string s)))).

(** [ethers.formatUnits(z, decimals)] for [decimals > 0]. *)
Definition formatUnits (decimals : nat) (z : Z) : string :=
  let a := Z.abs z in
  let unit := 10 ^ Z.of_nat decimals in
  let whole := Z_digits (a / unit) in
  let f := Z_digits (a mod unit) in
  let f := strip_trailing_zeros (zeros (decimals - String.length f) ++ f)%string in
  ((if (z <? 0)%Z then "-" else "") ++ whole ++ "." ++
   (match f with EmptyString => "0" | _ => f end))%string.

(** [ethers.parseUnits(s, decimals)] *)
Definition parseUnits (decimals : nat) (s : string) : result Z :=
  let '(neg, s) := match s with String "-" t => (true, t) | _ => (false, s) end in
  let '(whole, r) := span_digits s in
  let '(frac, r) :=
    match r with
    | String "." t => span_digits t
    | _ => (EmptyString, r)
    end in
  match r, (String.length whole + String.length frac)%nat with
  | EmptyString, S _ =>
      let kept := String.substring 0 decimals (frac ++ zeros (decimals - String.length frac))%string in
      let extra := String.substring decimals (String.length frac - decimals) frac in
      if forallb_string (Ascii.eqb "0") extra then
        let v := digits_value 0 (whole ++ kept)%string in
        let v := if neg then - v else v in
        if (- 2 ^ 511 <=? v) && (v <? 2 ^ 511) then Fulfilled v
        else Rejected (Error "overflow" (Some "NUMERIC_FAULT"))
      else Rejected (Error "too many decimals for format" (Some "NUMERIC_FAULT"))
  | _, _ => Rejected (Error "invalid FixedNumber string value" (Some "INVALID_ARGUMENT"))
  end.

(** *** ethers: addresses *)

(** [ethers.isAddress] on the hexadecimal form, with or without the [0x]
    prefix.  A string that mixes upper and lower case letters is an
    address only if its letters carry the Keccak-256 checksum, and the
    ICAP form carries a checksum too: this implementation decides neither
    and answers [false] for both. *)
Definition hex_isAddress (v : value) : bool :=
  match v with
  | Str s =>
      let h := match strip_prefix "0x" s with Some h => h | None => s end in
      (String.length h =? 40)%nat && forallb_string is_hex h &&
      negb (existsb_string is_lower_hex h && existsb_string is_upper_hex h)
  | _ => false
  end.


#[export] Instance runtime : Runtime := {|
  isAddress := hex_isAddress;
  toLowerCase := lower;
  parseFloat_string := decimal_parseFloat;
  number_toString := shortest_toString;
  number_toFixed2 := rounded_toFixed2;
  formatEther := formatUnits 18;
  formatGwei := formatUnits 9;
  parseEther := parseUnits 18
|}.

(** A node in a fixed state that fulfils every call. *)
Record node : Type := {
  node_balance : Z;
  node_gasPrice : option Z;
  node_nonce : number;
  node_blockNumber : number
}.

Definition sent (n : node) (signedTx : string) : TransactionResponse :=
  {| tx_hash := ("0xhash:" ++ signedTx)%string;
     tx_from := "";
     tx_to := Null;
     tx_value := 0;
     tx_gasPrice := node_gasPrice n;
     tx_nonce := node_nonce n;
     tx_blockNumber := Null |}.

Definition mined (n : node) : TransactionReceipt :=
  {| rc_status := Num 1%float;
     rc_blockNumber := node_blockNumber n;
     rc_gasUsed := 21000;
     rc_gasPrice := match node_gasPrice n with Some g => g | None => 0 end |}.

Definition answer (n : node) : oracle :=
  fun _ X c =>
    match c in call X return result X with
    | getBalance _ => Fulfilled (node_balance n)
    | getFeeData => Fulfilled {| fee_gasPrice := node_gasPrice n |}
    | getTransactionCount _ _ => Fulfilled (node_nonce n)
    | estimateGas _ => Fulfilled 21000
    | getTransaction _ => Fulfilled None
    | getTransactionReceipt _ => Fulfilled None
    | confirmations _ => Fulfilled 1%float
    | signTransaction _ => Fulfilled "0xsigned"%string
    | signMessage _ => Fulfilled "0xsignature"%string
    | broadcastTransaction s => Fulfilled (sent n s)
    | wait _ _ => Fulfilled (mined n)
    end.

(** A node that cannot be reached: every call is rejected. *)
Definition unreachable : oracle :=
  fun _ X _ => Rejected (Error "could not detect network" (Some "NETWORK_ERROR")).

End Reference.

(** ** Concrete requests *)

Module Scenario.
Import Reference.

Local Open Scope Z_scope.

(** The backend wallet. *)
Definition wallet : string := "0x1111111111111111111111111111111111111111".

(** Some other account. *)
Definition treasury : string := "0xabcdefabcdefabcdefabcdefabcdefabcdefabcd".

(** A mainnet node on which the wallet holds [balance] wei. *)
Definition node_with (balance : Z) : oracle :=
  answer {| node_balance := balance;
            node_gasPrice := Some 30000000000;
            node_nonce := 7%float;
            node_blockNumber := 100%float |}.

Definition ether : Z := 1000000000000000000.

(** A request with a JSON object as its body. *)
Definition post (fields : list (string * value)) : request :=
  {| req_body := Obj fields; req_hash := "" |}.

(** The response of a run, when there is one. *)
Definition response_of (f : final response) : option response :=
  match out f with
  | Responded r => Some r
  | Escaped _ => None
  end.

End Scenario.

(** ** More nodes and intents *)

Module Cases.
Import Reference.

Local Open Scope Z_scope.

(** The intent the handlers build on the nodes of [Scenario]. *)
Definition intent (destination : value) (amount : Z) : TransactionRequest :=
  {| to := destination;
     value_wei := amount;
     nonce := 7%float;
     gasLimit := 21000%float;
     gasPrice := Some 30000000000;
     chainId := 1%float |}.

(** The state of the nodes of [Scenario], with a balance of one ether. *)
Definition mainnet : node :=
  {| node_balance := Scenario.ether;
     node_gasPrice := Some 30000000000;
     node_nonce := 7%float;
     node_blockNumber := 100%float |}.

(** A node that has indexed one mined transaction and answers with it for
    every hash, with twelve confirmations. *)
Definition indexed : oracle :=
  fun i X c =>
    match c in call X return result X with
    | getTransaction h => Fulfilled (Some (sent mainnet h))
    | getTransactionReceipt _ => Fulfilled (Some (mined mainnet))
    | confirmations _ => Fulfilled 12%float
    | c' => answer mainnet i c'
    end.

(** A node with half an ether. *)
Definition half_funded : oracle := Scenario.node_with 500000000000000000.

(** A request whose body was not parsed: [req.body] is [undefined]. *)
Definition no_body : request := {| req_body := Undefined; req_hash := "" |}.

End Cases.

(** * Verification *)

(** The answer of the node to the call at the head of the goal. *)
Ltac answer :=
  match goal with
  | |- context [?o ?i ?X ?c] =>
      match type of o with oracle => destruct (o i X c) end
  end.

(** The test of the conditional at the head of the goal. *)
Ltac branch :=
  match goal with
  | |- context [if ?b then _ else _] => destruct b eqn:?
  end.

(** The steps of a run that do not depend on the node. *)
Ltac exec :=
  cbn [run bind try_catch eval await or_else method_toLowerCase
       negb orb andb out earningsBalance calls fst snd].

(** A body that has one of its properties set is an object: destructuring
    it does not throw. *)
Lemma destructure_get (v : value) (k : string) :
  get v k <> Undefined -> destructure v = Fulfilled (get v).
Proof. destruct v; simpl; intros H; try reflexivity; contradiction. Qed.

(** On a string [parseFloat] is the primitive of the runtime. *)
Lemma parseFloat_Str {R : Runtime} (s : string) :
  parseFloat (Str s) = Fulfilled (parseFloat_string s).
Proof. reflexivity. Qed.

Lemma parseFloat_ToString {R : Runtime} (v : value) (s : string) :
  ToString v = Fulfilled s -> parseFloat v = Fulfilled (parseFloat_string s).
Proof. unfold parseFloat. intros ->. reflexivity. Qed.

(** On a truthy value, the method [toString] is [ToString]. *)
Lemma method_toString_truthy {R : Runtime} (v : value) :
  truthy v = true -> method_toString v = ToString v.
Proof. destruct v; simpl; intros H; try discriminate; reflexivity. Qed.

(** ** The checks of [/withdraw] *)

Section Withdraw.
Context {R : Runtime}.
Variable w : string.

Local Open Scope float_scope.

(** C4, as the code has it.  A [/withdraw] request whose destination is a
    string that is not an address is answered with status 400 and an
    [error] message, and the node is not called at all: no balance, fee,
    nonce, signing, broadcast or wait call.  The message is "Invalid
    address" when the request got past the presence check that comes
    first, that is when [toAddress] and [amountETH] are both truthy;
    otherwise the presence check has answered already, with "Missing
    parameters". *)
Theorem withdraw_invalid_address (o : oracle) (g : number) (req : request) (s : string) :
  get (req_body req) "toAddress" = Str s ->
  isAddress (Str s) = false ->
  serve w o g POST_withdraw req =
  Final (Responded
           (json 400 [("error",
                       Str (if truthy (Str s) && truthy (get (req_body req) "amountETH")
                            then "Invalid address"
                            else "Missing parameters"))]))
        g [].
Proof.
  intros Ha Ia.
  unfold serve, handler, withdraw.
  rewrite (destructure_get _ "toAddress") by (rewrite Ha; discriminate).
  exec. rewrite Ha, Ia.
  destruct (truthy (Str s)); destruct (truthy (get (req_body req) "amountETH"));
    reflexivity.
Qed.

(** A destination that is the wallet's address up to the case of its
    letters is refused before the node is called. *)
Lemma withdraw_same_address (o : oracle) (g : number) (req : request) (a : string) :
  get (req_body req) "toAddress" = Str a ->
  truthy (Str a) = true ->
  truthy (get (req_body req) "amountETH") = true ->
  isAddress (Str a) = true ->
  toLowerCase a = toLowerCase w ->
  serve w o g POST_withdraw req =
  Final (Responded (json 400 [("error", Str "Cannot send to backend wallet")])) g [].
Proof.
  intros Ha Ta Tm Ia Ea.
  unfold serve, handler, withdraw.
  rewrite (destructure_get _ "toAddress") by (rewrite Ha; discriminate).
  exec. rewrite Ha, Ta, Tm, Ia. exec. rewrite Ea, String.eqb_refl. reflexivity.
Qed.

(** C3, as the code has it.  A [/withdraw] request that carries an
    amount and whose destination is the wallet's own address is answered
    with status 400 and [{error: "Cannot send to backend wallet"}], and the
    run makes no call to the node: the balance has not been queried.
    ([wallet.address] is an address, and not the empty string, for
    ethers.) *)
Theorem withdraw_self_transfer_rejected (o : oracle) (g : number) (req : request) :
  isAddress (Str w) = true ->
  truthy (Str w) = true ->
  get (req_body req) "toAddress" = Str w ->
  truthy (get (req_body req) "amountETH") = true ->
  out (serve w o g POST_withdraw req) =
  Responded (json 400 [("error", Str "Cannot send to backend wallet")]) /\
  calls (serve w o g POST_withdraw req) = [] /\
  existsb is_getBalance (calls (serve w o g POST_withdraw req)) = false.
Proof.
  intros Iw Tw Ha Tm.
  rewrite (withdraw_same_address o g req Ha Tw Tm Iw eq_refl).
  repeat split.
Qed.

(** C2, as the handler decides it.  For a [/withdraw] request that passed
    the checks of the request (both parameters present, the destination an
    address other than the wallet's), when the balance printed in ether and
    read back as a number is less than the amount read as a number, the
    answer is status 400 with [{error: "Insufficient backend balance",
    balance}], [balance] being the balance as printed; the balance query is
    the only call of the run, so nothing is signed and nothing is
    broadcast. *)
Theorem withdraw_insufficient_balance
  (o : oracle) (g : number) (req : request) (a : string) (b : Z) (requested : number) :
  get (req_body req) "toAddress" = Str a ->
  truthy (Str a) = true ->
  truthy (get (req_body req) "amountETH") = true ->
  isAddress (Str a) = true ->
  String.eqb (toLowerCase a) (toLowerCase w) = false ->
  o 0%nat _ (getBalance w) = Fulfilled b ->
  parseFloat (get (req_body req) "amountETH") = Fulfilled requested ->
  (parseFloat_string (formatEther b) <? requested) = true ->
  out (serve w o g POST_withdraw req) =
  Responded (json 400 [("error", Str "Insufficient backend balance");
                       ("balance", Str (formatEther b))]) /\
  calls (serve w o g POST_withdraw req) = [Entry (getBalance w) (Fulfilled b)] /\
  signed_requests (calls (serve w o g POST_withdraw req)) = [] /\
  broadcasts (calls (serve w o g POST_withdraw req)) = [].
Proof.
  intros Ha Ta Tm Ia Na Hb Hr Lt.
  unfold serve, handler, withdraw.
  rewrite (destructure_get _ "toAddress") by (rewrite Ha; discriminate).
  exec. rewrite Ha, Ta, Tm, Ia. exec. rewrite Na. exec. rewrite Hb. exec.
  rewrite parseFloat_Str, Hr. exec. rewrite Lt. exec. repeat split.
Qed.


End Withdraw.

(** ** The treasury endpoints *)

Section Treasury.
Context {R : Runtime}.
Variable w : string.

Local Open Scope float_scope.
Local Open Scope prog_scope.


(** The steps of a policy. *)
Ltac policy :=
  cbn [destination amount_of missing_destination insufficient succeeded
       convert_policy fund_policy profits_policy claim_policy short_success].







(** C9.  A [/fund-from-earnings] request whose body names no destination
    ([treasury], [to] and [toAddress] all absent) is sent to the wallet's
    own address.  When the balance covers the amount and the margin and the
    node fulfils each call, the run is the submission of an intent whose
    [to] is [wallet.address]: it is signed and broadcast, and the response
    is the success response with [to] the wallet's address.  On every
    node, whatever the handler gives to the signer has [to] equal to the
    wallet's address: nothing in the handler refuses the self-transfer. *)
Theorem fund_from_earnings_defaults_to_wallet
  (o : oracle) (g : number) (req : request) (ps : list (string * value))
  (b : Z) (eth usd : number) :
  req_body req = Obj ps ->
  get (req_body req) "treasury" = Undefined ->
  get (req_body req) "to" = Undefined ->
  get (req_body req) "toAddress" = Undefined ->
  (forall tx : TransactionRequest,
      In tx (signed_requests (calls (serve w o g POST_fund_from_earnings req))) ->
      to tx = Str w) /\
  (parseFloat (get (req_body req) "amountETH") = Fulfilled eth ->
   parseFloat (get (req_body req) "amountUSD") = Fulfilled usd ->
   o 0%nat _ (getBalance w) = Fulfilled b ->
   (parseFloat_string (formatEther b) <?
    number_or (number_or eth (usd / 3450)) 0.01 + 0.002) = false ->
   forall (fd : FeeData) (n : number) (v : Z) (s : string)
          (txr : TransactionResponse) (rc : TransactionReceipt),
     o 1%nat _ getFeeData = Fulfilled fd ->
     o 2%nat _ (getTransactionCount w (Some "pending")) = Fulfilled n ->
     parseEther (number_toString (number_or (number_or eth (usd / 3450)) 0.01))
     = Fulfilled v ->
     o 3%nat _ (signTransaction {| to := Str w;
                                   value_wei := v;
                                   nonce := n;
                                   gasLimit := 21000;
                                   gasPrice := fee_gasPrice fd;
                                   chainId := 1 |}) = Fulfilled s ->
     o 4%nat _ (broadcastTransaction s) = Fulfilled txr ->
     o 5%nat _ (wait txr 1) = Fulfilled rc ->
     serve w o g POST_fund_from_earnings req =
     Final (Responded
              (json 200 [("success", Bool true);
                         ("txHash", Str (tx_hash txr));
                         ("from", Str w);
                         ("to", Str w);
                         ("amount", Num (number_or (number_or eth (usd / 3450)) 0.01));
                         ("blockNumber", Num (rc_blockNumber rc))]))
           g
           [Entry (getBalance w) (Fulfilled b);
            Entry getFeeData (Fulfilled fd);
            Entry (getTransactionCount w (Some "pending")) (Fulfilled n);
            Entry (signTransaction {| to := Str w;
                                      value_wei := v;
                                      nonce := n;
                                      gasLimit := 21000;
                                      gasPrice := fee_gasPrice fd;
                                      chainId := 1 |}) (Fulfilled s);
            Entry (broadcastTransaction s) (Fulfilled txr);
            Entry (wait txr 1) (Fulfilled rc)]).
Proof.
  intros Hb Ht Ho Ha.
  unfold serve, handler, fund_from_earnings.
  rewrite Hb in *. cbn [destructure]. exec.
  rewrite Ht, Ho, Ha. cbn [or truthy].
  split.
  - intros tx. unfold or_else.
    destruct (parseFloat (get (Obj ps) "amountETH")) as [eth'|]; exec; [|intros []].
    destruct (number_truthy eth'); exec;
      [|destruct (parseFloat (get (Obj ps) "amountUSD")) as [usd'|]; exec; [|intros []]].
    all: destruct (o 0%nat _ (getBalance w)) as [b'|]; exec; [|intros []].
    all: rewrite parseFloat_Str; exec.
    all: branch; exec; [intros []|].
    all: destruct (o 1%nat _ getFeeData) as [fd|]; exec; [|intros []].
    all: destruct (o 2%nat _ (getTransactionCount w (Some "pending"))) as [n|]; exec;
      [|intros []].
    all: destruct (parseEther _) as [v|]; exec; [|intros []].
    all: destruct (o 3%nat _ _) as [s|]; exec; [|intros [<-|[]]; reflexivity].
    all: destruct (o 4%nat _ _) as [txr|]; exec; [|intros [<-|[]]; reflexivity].
    all: destruct (o 5%nat _ _) as [rc|]; exec; intros [<-|[]]; reflexivity.
  - intros He Hu Hbal Ge fd n v s txr rc Hfd Hn Hv Hs Htx Hrc.
    rewrite He. exec.
    assert (E : or_else eth (bind (eval (parseFloat (get (Obj ps) "amountUSD")))
                                  (fun usd0 => Ret (usd0 / 3450))) =
                Ret (number_or eth (usd / 3450))).
    { unfold or_else, number_or. rewrite Hu. destruct (number_truthy eth); reflexivity. }
    rewrite E. exec. rewrite Hbal. exec. rewrite parseFloat_Str. exec.
    rewrite Ge. exec.
    rewrite Hfd. exec. rewrite Hn. exec. rewrite Hv. exec. rewrite Hs. exec.
    rewrite Htx. exec. rewrite Hrc. exec. reflexivity.
Qed.

(** C10.  In [/withdraw-profits-to-treasury] without a [percentage], and in
    [/claim-mev-profits], an [amountETH] that [parseFloat] reads as [NaN]
    (a missing or unparsable one) or as zero resolves to 0.01.  When the
    balance is at least 0.01 + 0.002 and the node fulfils each call, the
    intent that is signed and broadcast has the value [parseEther] reads
    from ["0.01"], that is 10^16 wei, and the success response reports the
    amount 0.01. *)
Theorem default_amount
  (o : oracle) (g : number) (req : request) (ps : list (string * value))
  (b : Z) (eth : number) :
  req_body req = Obj ps ->
  parseFloat (get (req_body req) "amountETH") = Fulfilled eth ->
  number_truthy eth = false ->
  o 0%nat _ (getBalance w) = Fulfilled b ->
  (parseFloat_string (formatEther b) <? 0.01 + 0.002) = false ->
  number_toString 0.01 = "0.01"%string ->
  parseEther "0.01" = Fulfilled 10000000000000000%Z ->
  forall (fd : FeeData) (n : number) (s : string)
         (txr : TransactionResponse) (rc : TransactionReceipt),
    o 1%nat _ getFeeData = Fulfilled fd ->
    o 2%nat _ (getTransactionCount w (Some "pending")) = Fulfilled n ->
    o 4%nat _ (broadcastTransaction s) = Fulfilled txr ->
    o 5%nat _ (wait txr 1) = Fulfilled rc ->
    (truthy (get (req_body req) "percentage") = false ->
     o 3%nat _ (signTransaction
                  {| to := or (or (get (req_body req) "treasury") (get (req_body req) "to"))
                              (get (req_body req) "toAddress");
                     value_wei := 10000000000000000;
                     nonce := n;
                     gasLimit := 21000;
                     gasPrice := fee_gasPrice fd;
                     chainId := 1 |}) = Fulfilled s ->
     serve w o g POST_withdraw_profits_to_treasury req =
     Final (Responded (json 200 [("success", Bool true);
                                 ("txHash", Str (tx_hash txr));
                                 ("amount", Num 0.01);
                                 ("blockNumber", Num (rc_blockNumber rc))]))
           g
           [Entry (getBalance w) (Fulfilled b);
            Entry getFeeData (Fulfilled fd);
            Entry (getTransactionCount w (Some "pending")) (Fulfilled n);
            Entry (signTransaction
                     {| to := or (or (get (req_body req) "treasury")
                                     (get (req_body req) "to"))
                                 (get (req_body req) "toAddress");
                        value_wei := 10000000000000000;
                        nonce := n;
                        gasLimit := 21000;
                        gasPrice := fee_gasPrice fd;
                        chainId := 1 |}) (Fulfilled s);
            Entry (broadcastTransaction s) (Fulfilled txr);
            Entry (wait txr 1) (Fulfilled rc)]) /\
    (o 3%nat _ (signTransaction
                  {| to := or (or (get (req_body req) "to") (get (req_body req) "toAddress"))
                              (get (req_body req) "treasury");
                     value_wei := 10000000000000000;
                     nonce := n;
                     gasLimit := 21000;
                     gasPrice := fee_gasPrice fd;
                     chainId := 1 |}) = Fulfilled s ->
     serve w o g POST_claim_mev_profits req =
     Final (Responded (json 200 [("success", Bool true);
                                 ("txHash", Str (tx_hash txr));
                                 ("amount", Num 0.01);
                                 ("blockNumber", Num (rc_blockNumber rc))]))
           g
           [Entry (getBalance w) (Fulfilled b);
            Entry getFeeData (Fulfilled fd);
            Entry (getTransactionCount w (Some "pending")) (Fulfilled n);
            Entry (signTransaction
                     {| to := or (or (get (req_body req) "to")
                                     (get (req_body req) "toAddress"))
                                 (get (req_body req) "treasury");
                        value_wei := 10000000000000000;
                        nonce := n;
                        gasLimit := 21000;
                        gasPrice := fee_gasPrice fd;
                        chainId := 1 |}) (Fulfilled s);
            Entry (broadcastTransaction s) (Fulfilled txr);
            Entry (wait txr 1) (Fulfilled rc)]).
Proof.
  intros Hb He Hm Hbal Ge Hstr Hwei fd n s txr rc Hfd Hn Htx Hrc.
  unfold serve, handler, withdraw_profits_to_treasury, claim_mev_profits.
  rewrite Hb in *. cbn [destructure]. exec.
  rewrite He. exec. unfold number_or. rewrite Hm.
  split.
  - intros Hp Hs. rewrite Hbal. exec. rewrite parseFloat_Str. exec.
    rewrite Hp. exec. rewrite Ge. exec.
    rewrite Hfd. exec. rewrite Hn. exec. rewrite Hstr, Hwei. exec. rewrite Hs. exec.
    rewrite Htx. exec. rewrite Hrc. exec. reflexivity.
  - intros Hs. rewrite Hbal. exec. rewrite parseFloat_Str. exec. rewrite Ge. exec.
    rewrite Hfd. exec. rewrite Hn. exec. rewrite Hstr, Hwei. exec. rewrite Hs. exec.
    rewrite Htx. exec. rewrite Hrc. exec. reflexivity.
Qed.

End Treasury.

(** ** Numbers *)

Section Numbers.

Local Open Scope float_scope.

Lemma nonneg_spec x : nonneg x = sf_nonneg (Prim2SF x).
Proof.
  unfold nonneg. rewrite leb_spec.
  change (Prim2SF 0) with (S754_zero false).
  destruct (Prim2SF x) as [s|s| |s m e]; try destruct s; reflexivity.
Qed.

Lemma shr_1_nonneg mrs : (0 <= shr_m mrs)%Z -> (0 <= shr_m (shr_1 mrs))%Z.
Proof.
  destruct mrs as [m r s]; simpl.
  destruct m as [|p|p]; simpl; try lia.
  - destruct p; simpl; lia.
Qed.

Lemma iter_pos_shr_1_nonneg p : forall mrs,
  (0 <= shr_m mrs)%Z -> (0 <= shr_m (iter_pos shr_1 p mrs))%Z.
Proof.
  induction p; intros mrs H; simpl; auto using shr_1_nonneg.
Qed.

Lemma shr_fexp_nonneg prec emax m e l :
  (0 <= m)%Z -> (0 <= shr_m (fst (shr_fexp prec emax m e l)))%Z.
Proof.
  intros H. unfold shr_fexp, shr.
  assert (H0 : (0 <= shr_m (shr_record_of_loc m l))%Z).
  { unfold shr_record_of_loc. destruct l as [|[]]; simpl; exact H. }
  destruct (fexp prec emax (Zdigits2 m + e) - e)%Z; simpl; auto using iter_pos_shr_1_nonneg.
Qed.

Lemma round_nearest_even_nonneg m l : (0 <= m)%Z -> (0 <= round_nearest_even m l)%Z.
Proof.
  intros H. unfold round_nearest_even. destruct l as [|[]]; try lia.
  destruct (Z.even m); lia.
Qed.

Lemma binary_round_aux_nonneg prec emax m e l :
  (0 <= m)%Z -> sf_nonneg (binary_round_aux prec emax false m e l) = true.
Proof.
  intros H. unfold binary_round_aux.
  pose proof (@shr_fexp_nonneg prec emax m e l H) as H1.
  destruct (shr_fexp prec emax m e l) as [mrs' e']. simpl in H1.
  pose proof (@shr_fexp_nonneg prec emax _ e' loc_Exact
                (@round_nearest_even_nonneg (shr_m mrs') (loc_of_shr_record mrs') H1)) as H2.
  destruct (shr_fexp prec emax _ e' loc_Exact) as [mrs'' e'']. simpl in H2.
  destruct (shr_m mrs''); try lia; try reflexivity.
  destruct (Z.leb _ _); reflexivity.
Qed.

Lemma SFadd_nonneg prec emax x y :
  sf_nonneg x = true -> sf_nonneg y = true -> sf_nonneg (SFadd prec emax x y) = true.
Proof.
  destruct x as [sx|sx| |sx mx ex], y as [sy|sy| |sy my ey]; simpl; intros Hx Hy;
    try discriminate; try assumption; try reflexivity.
  - destruct sx, sy; reflexivity.
  - destruct sx, sy; try discriminate; reflexivity.
  - destruct sx, sy; try discriminate. simpl.
    unfold binary_round.
    destruct (shl_align _ _ _) as [mz ez].
    apply binary_round_aux_nonneg. lia.
Qed.

Lemma add_nonneg x y : nonneg x = true -> nonneg y = true -> nonneg (x + y) = true.
Proof.
  rewrite !nonneg_spec, add_spec. apply SFadd_nonneg.
Qed.

End Numbers.

(** ** The earnings counter *)

Section Ledger.
Context {R : Runtime}.
Variable w : string.

Local Open Scope float_scope.

Lemma run_read_only {A : Type} (p : prog A) :
  read_only p -> forall o i g, earningsBalance (run o i g p) = g.
Proof.
  induction p as [a|e|X c k IH|k IH|n k IH]; simpl; intros H o i g; auto.
  contradiction.
Qed.

Lemma read_only_bind {A B : Type} (p : prog A) (f : A -> prog B) :
  read_only p -> (forall a, read_only (f a)) -> read_only (bind p f).
Proof.
  induction p as [a|e|X c k IH|k IH|n k IH]; simpl; intros H Hf; auto.
Qed.

Lemma read_only_try_catch {A : Type} (p : prog A) (h : error -> prog A) :
  read_only p -> (forall e, read_only (h e)) -> read_only (try_catch p h).
Proof.
  induction p as [a|e|X c k IH|k IH|n k IH]; simpl; intros H Hh; auto.
Qed.

Lemma read_only_await {X : Type} (c : call X) : read_only (await c).
Proof. intros [x|e]; exact I. Qed.

Lemma read_only_eval {X : Type} (r : result X) : read_only (eval r).
Proof. destruct r; exact I. Qed.

(** A handler body made of awaits, pure steps and conditionals. *)
Ltac read_only :=
  repeat first
    [ exact I
    | simple apply read_only_eval
    | simple apply read_only_await
    | simple apply read_only_try_catch
    | simple apply read_only_bind
    | intro
    | match goal with
      | |- read_only (if ?b then _ else _) => destruct b
      | |- read_only (match ?x with _ => _ end) => destruct x
      | |- read_only (Load _) => intro
      end ].

(** Every handler but that of [/credit-earnings] leaves [earningsBalance]
    as it found it. *)
Lemma other_routes_read_only (r : route) (req : request) :
  r <> POST_credit_earnings -> read_only (handler w r req).
Proof.
  intros Hr. destruct r; try contradiction; clear Hr;
    unfold handler, withdraw, sign_message, transaction, balance, estimate_gas,
      convert_earnings_to_eth, fund_from_earnings, withdraw_profits_to_treasury,
      claim_mev_profits, earnings, status_handler, health, or_else;
    read_only.
Qed.

(** [/credit-earnings]: the sum is written, and returned as
    [newBalance], when the amount can be read; otherwise nothing is
    written.  The node is not called. *)
Lemma credit_earnings_adds (o : oracle) (g : number) (req : request) (amount : number) :
  credited req = Some amount ->
  serve w o g POST_credit_earnings req =
  Final (Responded (json 200 [("success", Bool true); ("newBalance", Num (g + amount))]))
        (g + amount) [].
Proof.
  unfold credited, serve, handler, credit_earnings.
  destruct (destructure (req_body req)) as [b|]; [|discriminate]. exec.
  destruct (parseFloat (b "amountUSD")) as [a|]; [|discriminate].
  intros [= <-]. reflexivity.
Qed.

Lemma credit_earnings_rejects (o : oracle) (g : number) (req : request) :
  credited req = None ->
  earningsBalance (serve w o g POST_credit_earnings req) = g /\
  exists e : error,
    out (serve w o g POST_credit_earnings req) =
    Responded (json 500 [("error", Str (message e))]).
Proof.
  unfold credited, serve, handler, credit_earnings.
  destruct (destructure (req_body req)) as [b|e]; exec.
  - destruct (parseFloat (b "amountUSD")) as [a|e]; [discriminate|].
    intros _. split; [reflexivity | exists e; reflexivity].
  - intros _. split; [reflexivity | exists e; reflexivity].
Qed.

Lemma credit_earnings_credits (o : oracle) (g : number) (req : request) :
  earningsBalance (serve w o g POST_credit_earnings req) = credit g (credited req).
Proof.
  destruct (credited req) as [amount|] eqn:Hc.
  - rewrite (credit_earnings_adds o g req Hc). reflexivity.
  - apply (credit_earnings_rejects o g req Hc).
Qed.

(** One request keeps the counter non-negative when what it credits is
    non-negative. *)
Lemma serve_nonneg (o : oracle) (g : number) (r : route) (req : request) :
  nonneg g = true ->
  (r = POST_credit_earnings -> credits_nonneg req) ->
  nonneg (earningsBalance (serve w o g r req)) = true.
Proof.
  intros Hg Hc.
  destruct (route_eq_dec r POST_credit_earnings) as [->|Hr].
  - rewrite credit_earnings_credits.
    destruct (credited req) as [amount|] eqn:E; cbn [credit]; [|exact Hg].
    apply add_nonneg; [exact Hg|]. apply (Hc eq_refl), E.
  - unfold serve. rewrite run_read_only; [exact Hg|].
    apply other_routes_read_only, Hr.
Qed.

Lemma serve_all_nonneg (l : list arrival) :
  (forall a, In a l -> route_of a = POST_credit_earnings ->
             credits_nonneg (request_of a)) ->
  forall g, nonneg g = true -> nonneg (serve_all w g l) = true.
Proof.
  induction l as [|a l IH]; intros Hl g Hg; simpl; [exact Hg|].
  apply IH.
  - intros a' Ha'. apply Hl. right. exact Ha'.
  - apply serve_nonneg; [exact Hg|]. apply Hl. left. reflexivity.
Qed.

(** C5, as the code has it.  [earningsBalance] starts at 0 and only
    [/credit-earnings] changes it: every other route leaves it as it was,
    and [/credit-earnings] replaces it by its sum with
    [parseFloat(amountUSD) || 0] (or leaves it, when the amount cannot be
    read at all).  The amount is not checked, so the counter is
    non-negative after any sequence of requests in which every amount
    credited is non-negative, and only then: a negative amount is added
    like any other. *)
Theorem earningsBalance_only_credited :
  nonneg earningsBalance_initial = true /\
  (forall (r : route) (req : request) (o : oracle) (g : number),
      r <> POST_credit_earnings -> earningsBalance (serve w o g r req) = g) /\
  (forall (req : request) (o : oracle) (g : number),
      earningsBalance (serve w o g POST_credit_earnings req) =
      match credited req with
      | Some amount => g + amount
      | None => g
      end) /\
  (forall l : list arrival,
      (forall a, In a l -> route_of a = POST_credit_earnings ->
                 forall amount : number,
                   credited (request_of a) = Some amount -> nonneg amount = true) ->
      nonneg (serve_all w earningsBalance_initial l) = true).
Proof.
  split; [reflexivity|]. split; [|split].
  - intros r req o g Hr. unfold serve. apply run_read_only.
    apply other_routes_read_only, Hr.
  - intros req o g. apply credit_earnings_credits.
  - intros l Hl. apply serve_all_nonneg; [exact Hl | reflexivity].
Qed.


(** C6, at [/earnings].  The handler has no [try] block: when the balance
    query is rejected, the error leaves the handler, and no response is
    produced. *)
Theorem earnings_error_escapes (o : oracle) (g : number) (req : request) (e : error) :
  o 0%nat _ (getBalance w) = Rejected e ->
  serve w o g GET_earnings req = Final (Escaped e) g [Entry (getBalance w) (Rejected e)].
Proof.
  intros He. unfold serve, handler, earnings. exec. rewrite He. reflexivity.
Qed.

(** In [/claim-mev-profits] the amount is read before the [try] block is
    entered: an [amountETH] that cannot be converted to a string makes the
    error leave the handler, before any call. *)
Lemma claim_mev_profits_error_escapes
  (o : oracle) (g : number) (req : request) (b : string -> value) (e : error) :
  destructure (req_body req) = Fulfilled b ->
  parseFloat (b "amountETH") = Rejected e ->
  serve w o g POST_claim_mev_profits req = Final (Escaped e) g [].
Proof.
  intros Hb He. unfold serve, handler, claim_mev_profits.
  rewrite Hb. exec. rewrite He. reflexivity.
Qed.

(** A [try] block whose [catch] clause responds always responds. *)
Lemma responds_try_catch {A : Type} (p : prog A) (h : error -> prog A) :
  (forall e, responds (h e)) -> responds (try_catch p h).
Proof.
  intros Hh. induction p as [a|e|X c k IH|k IH|n k IH]; intros o i g; simpl.
  - eexists; reflexivity.
  - apply Hh.
  - apply IH.
  - apply IH.
  - apply IH.
Qed.

Lemma responds_Ret {A : Type} (a : A) : responds (Ret a).
Proof. intros o i g. eexists; reflexivity. Qed.

(** The handlers written as one [try] block answer every request,
    whatever the node does and whatever the body holds: all the routes
    that call the node or read the body, except [/earnings] and the two
    that read the body before their [try] block. *)
Theorem guarded_routes_respond (r : route) (req : request) :
  r <> GET_earnings ->
  r <> POST_withdraw_profits_to_treasury ->
  r <> POST_claim_mev_profits ->
  responds (handler w r req).
Proof.
  intros H1 H2 H3. destruct r; try contradiction; clear H1 H2 H3;
    unfold handler, withdraw, sign_message, transaction, balance, estimate_gas,
      credit_earnings, convert_earnings_to_eth, fund_from_earnings,
      status_handler, health;
    try apply responds_Ret;
    apply responds_try_catch; intros e; apply responds_Ret.
Qed.

End Ledger.

(** ** What is signed *)

Section Signed.

Variable P : TransactionRequest -> Prop.

Lemma run_signs_only {A : Type} (p : prog A) :
  signs_only P p ->
  forall o i g tx, In tx (signed_requests (calls (run o i g p))) -> P tx.
Proof.
  induction p as [a|e|X c k IH|k IH|n k IH]; simpl; intros H o i g tx Hin.
  - contradiction.
  - contradiction.
  - destruct H as [Hc Hk].
    destruct c; simpl in Hin;
      try (apply (IH _ (Hk _) _ _ _ _ Hin)).
    destruct Hin as [<-|Hin]; [exact Hc | apply (IH _ (Hk _) _ _ _ _ Hin)].
  - apply (IH _ (H g) _ _ _ _ Hin).
  - apply (IH H _ _ _ _ Hin).
Qed.

Lemma signs_only_bind {A B : Type} (p : prog A) (f : A -> prog B) :
  signs_only P p -> (forall a, signs_only P (f a)) -> signs_only P (bind p f).
Proof.
  induction p as [a|e|X c k IH|k IH|n k IH]; simpl; intros H Hf; auto.
  destruct H as [Hc Hk]. split; auto.
Qed.

Lemma signs_only_try_catch {A : Type} (p : prog A) (h : error -> prog A) :
  signs_only P p -> (forall e, signs_only P (h e)) -> signs_only P (try_catch p h).
Proof.
  induction p as [a|e|X c k IH|k IH|n k IH]; simpl; intros H Hh; auto.
  destruct H as [Hc Hk]. split; auto.
Qed.

Lemma signs_only_eval {A : Type} (r : result A) : signs_only P (eval r).
Proof. destruct r; exact I. Qed.

End Signed.

Section Intents.
Context {R : Runtime}.
Variable w : string.

(** A handler body made of awaits, pure steps and conditionals. *)
Ltac signs_only :=
  repeat first
    [ exact I
    | simple apply signs_only_eval
    | simple apply signs_only_try_catch
    | simple apply signs_only_bind
    | intro
    | match goal with
      | |- signs_only _ (await _) => split; [|intros []; exact I]
      | |- plain_transfer _ => split; reflexivity
      | |- signs_only _ (if ?b then _ else _) => destruct b
      | |- signs_only _ (match ?x with _ => _ end) => destruct x
      | |- signs_only _ (Load _) => intro
      | |- signs_only _ (Store _ _) => cbn [signs_only]
      | |- signs_only _ (Ret _) => exact I
      end ].

(** Whatever any handler gives to the signer, on any node and for any
    request, is a plain transfer: its gas limit is 21000 and its chain id
    1. *)
Theorem signed_intents_are_plain_transfers
  (r : route) (req : request) (o : oracle) (g : number) (tx : TransactionRequest) :
  In tx (signed_requests (calls (serve w o g r req))) ->
  gasLimit tx = 21000%float /\ chainId tx = 1%float.
Proof.
  unfold serve. apply (@run_signs_only plain_transfer).
  destruct r;
    unfold handler, withdraw, sign_message, transaction, balance, estimate_gas,
      credit_earnings, convert_earnings_to_eth, fund_from_earnings,
      withdraw_profits_to_treasury, claim_mev_profits, earnings, status_handler,
      health, or_else;
    signs_only.
Qed.

End Intents.

(** ** No call after a rejected call *)

Section Retry.
Context {R : Runtime}.
Variable w : string.

Lemma run_silent {A : Type} (p : prog A) :
  silent p -> forall o i g, calls (run o i g p) = [].
Proof.
  induction p as [a|e|X c k IH|k IH|n k IH]; simpl; intros H o i g; auto.
  contradiction.
Qed.

Lemma run_halting {A : Type} (p : prog A) :
  halting p -> forall o i g, stops_at_rejection (calls (run o i g p)) = true.
Proof.
  induction p as [a|e|X c k IH|k IH|n k IH]; simpl; intros H o i g; auto.
  destruct H as [Hr Hf].
  destruct (o i X c) as [x|e] eqn:E.
  - apply IH, Hf.
  - rewrite (run_silent _ (Hr e)). reflexivity.
Qed.

Lemma thrown_bind {A B : Type} (p : prog A) (f : A -> prog B) :
  thrown p -> thrown (bind p f).
Proof. destruct p; simpl; intros H; try contradiction; exact I. Qed.

Lemma strict_bind {A B : Type} (p : prog A) (f : A -> prog B) :
  strict p -> (forall a, strict (f a)) -> strict (bind p f).
Proof.
  induction p as [a|e|X c k IH|k IH|n k IH]; simpl; intros H Hf; auto.
  destruct H as [Hr Hx]. split; auto using thrown_bind.
Qed.

Lemma strict_await {X : Type} (c : call X) : strict (await c).
Proof. split; intros; exact I. Qed.

Lemma strict_eval {X : Type} (r : result X) : strict (eval r).
Proof. destruct r; exact I. Qed.

Lemma silent_try_catch_thrown {A : Type} (p : prog A) (h : error -> prog A) :
  thrown p -> (forall e, silent (h e)) -> silent (try_catch p h).
Proof. destruct p; simpl; intros H Hh; try contradiction. apply Hh. Qed.

Lemma halting_try_catch {A : Type} (p : prog A) (h : error -> prog A) :
  strict p -> (forall e, silent (h e)) -> halting (try_catch p h).
Proof.
  intros Hp Hh.
  assert (Hhalt : forall (q : prog A), silent q -> halting q).
  { induction q as [a|e|X c k IH|k IH|n k IH]; simpl; intros H; auto. contradiction. }
  induction p as [a|e|X c k IH|k IH|n k IH]; simpl in *; auto.
  destruct Hp as [Hr Hx]. split; auto using silent_try_catch_thrown.
Qed.

Lemma halting_strict {A : Type} (p : prog A) : strict p -> halting p.
Proof.
  induction p as [a|e|X c k IH|k IH|n k IH]; simpl; intros H; auto.
  destruct H as [Hr Hx]. split; auto.
  intros e. specialize (Hr e). destruct (k (Rejected e)); simpl in *; auto; contradiction.
Qed.

(** A handler body made of awaits, pure steps and conditionals. *)
Ltac strict :=
  repeat first
    [ exact I
    | simple apply strict_eval
    | simple apply strict_await
    | simple apply strict_bind
    | intro
    | match goal with
      | |- strict (if ?b then _ else _) => destruct b
      | |- strict (match ?x with _ => _ end) => destruct x
      | |- strict (Load _) => intro
      | |- strict (Store _ _) => cbn [strict]
      end ].

(** No handler retries.  On every node and for every request, once a
    call has been rejected the handler makes no further call: the rejected
    call is the last call of the run. *)
Theorem no_call_after_rejection (r : route) (req : request) (o : oracle) (g : number) :
  stops_at_rejection (calls (serve w o g r req)) = true.
Proof.
  unfold serve. apply run_halting.
  destruct r;
    unfold handler, withdraw, sign_message, transaction, balance, estimate_gas,
      credit_earnings, convert_earnings_to_eth, fund_from_earnings,
      withdraw_profits_to_treasury, claim_mev_profits, earnings, status_handler,
      health, or_else;
    try solve [simple apply halting_try_catch; [strict | intros e; exact I]];
    try solve [simple apply halting_strict; strict].
  - destruct (destructure (req_body req)); cbn [eval bind]; [|exact I].
    simple apply halting_try_catch; [strict | intros e; exact I].
  - destruct (destructure (req_body req)); cbn [eval bind]; [|exact I].
    destruct (parseFloat _); cbn [eval bind]; [|exact I].
    simple apply halting_try_catch; [strict | intros e; exact I].
Qed.

End Retry.

(** ** Runs, path by path

    A statement about the outcome and the calls of a run is turned into a
    statement about the program with [wp], and the program is then followed
    along each of its paths: an equation of the context decides a step when
    there is one, otherwise both answers are considered. *)

Lemma wp_run {A : Type} (o : oracle) (p : prog A) :
  forall (i : nat) (g : number) (post : outcome A -> number -> trace -> Prop),
    wp o i g p post ->
    post (out (run o i g p)) (earningsBalance (run o i g p)) (calls (run o i g p)).
Proof.
  induction p as [a|e|X c k IH|k IH|n k IH]; simpl; intros i g post H.
  - exact H.
  - exact H.
  - exact (IH _ _ _ _ H).
  - exact (IH _ _ _ _ H).
  - exact (IH _ _ _ H).
Qed.

(** The names a destructured body binds are its properties. *)
Lemma destructure_Fulfilled (v : value) (b : string -> value) :
  destructure v = Fulfilled b -> b = get v.
Proof. destruct v; simpl; intros [= <-]; reflexivity. Qed.

(** The program at the head of a run. *)
Ltac head p :=
  match p with
  | try_catch ?q _ => head q
  | bind ?q _ => head q
  | _ => p
  end.

(** The steps of a program that do not depend on the node. *)
Ltac exec_wp :=
  cbn [wp bind try_catch eval await negb orb andb formatUnits_gwei bigint_mul];
  rewrite ?parseFloat_Str;
  cbn [wp bind try_catch eval await negb orb andb formatUnits_gwei bigint_mul].

(** An equation of the context that tells about [t]. *)
Ltac known t :=
  match goal with
  | H : ?l = _ |- _ => match t with context [l] => rewrite H end
  end.

(** One step: what is known of the head of the program, or else the case
    analysis the head asks for. *)
Ltac step :=
  match goal with
  | |- wp _ _ _ ?p _ =>
      let h := head p in
      match h with
      | eval ?r => first [known r | destruct r eqn:?]
      | (if ?b then _ else _) => first [known b | destruct b eqn:?]
      | match ?x with _ => _ end => first [known x | destruct x eqn:?]
      end
  end.

(** Every path of a program. *)
Ltac walk := repeat (exec_wp; try step).

(** From a statement about a run to a statement about its program. *)
Ltac by_wp :=
  unfold serve;
  match goal with
  | |- context [run ?o ?i ?g ?p] =>
      pattern (out (run o i g p)), (earningsBalance (run o i g p)), (calls (run o i g p));
      apply wp_run
  end.

Ltac handlers :=
  unfold handler, withdraw, sign_message, transaction, balance, estimate_gas,
    credit_earnings, convert_earnings_to_eth, fund_from_earnings,
    withdraw_profits_to_treasury, claim_mev_profits, earnings, status_handler,
    health, or_else.

(** *** [NaN] in a comparison *)

Section NaN.

Local Open Scope float_scope.

Lemma SFeqb_irrefl (x : spec_float) : SFeqb x x = false -> x = S754_nan.
Proof.
  unfold SFeqb. destruct x as [s|s| |s m e]; simpl; try discriminate; try reflexivity.
  - destruct s; discriminate.
  - rewrite Z.compare_refl.
    change (PosDef.Pos.compare_cont Eq m m) with (Pos.compare m m).
    rewrite Pos.compare_refl. destruct s; discriminate.
Qed.

(** [NaN] is the one number that differs from itself. *)
Lemma is_nan_spec (x : number) : PrimFloat.is_nan x = true -> Prim2SF x = S754_nan.
Proof.
  unfold PrimFloat.is_nan. rewrite FloatAxioms.eqb_spec. intros H.
  apply SFeqb_irrefl. destruct (SFeqb _ _); [discriminate | reflexivity].
Qed.

(** No number is less than [NaN]. *)
Lemma ltb_nan (x y : number) : Prim2SF y = S754_nan -> (x <? y) = false.
Proof.
  intros H. rewrite FloatAxioms.ltb_spec, H. unfold SFltb.
  destruct (Prim2SF x); reflexivity.
Qed.

(** A quotient of [NaN], and its sum with a number, are [NaN]. *)
Lemma nan_div_add (x d m : number) :
  Prim2SF x = S754_nan -> Prim2SF (x / d + m) = S754_nan.
Proof.
  intros H. rewrite FloatAxioms.add_spec, FloatAxioms.div_spec, H. reflexivity.
Qed.

End NaN.

(** *** What every run has in common *)

Section Outcomes.
Context {R : Runtime}.
Variable w : string.

Local Open Scope float_scope.

(** A response with status 400 is a refusal made before anything is
    signed.  On every route, for every request and every node: when the
    handler answers 400, no transaction was given to the signer and nothing
    was broadcast, and the run made no call at all or the balance query
    alone. *)
Theorem refusal_precedes_signing
  (r : route) (req : request) (o : oracle) (g : number) (resp : response) :
  out (serve w o g r req) = Responded resp ->
  status resp = 400%Z ->
  signed_requests (calls (serve w o g r req)) = [] /\
  broadcasts (calls (serve w o g r req)) = [] /\
  (calls (serve w o g r req) = [] \/
   exists b : Z, calls (serve w o g r req) = [Entry (getBalance w) (Fulfilled b)]).
Proof.
  by_wp. destruct r; handlers; walk;
    (intros [= <-] || intros [=]); cbn [status json]; intros H; try discriminate H;
    repeat split; eauto.
Qed.

(** The server knows three statuses.  Every response of every route has
    status 200, 400 or 500: a transaction the node does not know is not a
    404, and a body that cannot be read is a 500. *)
Theorem response_statuses
  (r : route) (req : request) (o : oracle) (g : number) (resp : response) :
  out (serve w o g r req) = Responded resp ->
  status resp = 200%Z \/ status resp = 400%Z \/ status resp = 500%Z.
Proof.
  by_wp. destruct r; handlers; walk;
    (intros [= <-] || intros [=]); cbn [status json]; auto.
Qed.

(** A transfer route answers 200 only after the whole submission.  On
    each of the five routes that move funds, when the status is 200 the
    calls of the run are exactly six, all fulfilled: the wallet's balance,
    the fee data, the wallet's pending nonce, the signature of a
    transaction carrying that nonce and that gas price, the broadcast of
    the payload the signer returned, and the wait for one confirmation of
    the transaction broadcast; the response reports the hash of that
    transaction and the block of its receipt. *)
Theorem success_means_confirmed
  (r : route) (req : request) (o : oracle) (g : number) (resp : response) :
  transfer_route r = true ->
  out (serve w o g r req) = Responded resp ->
  status resp = 200%Z ->
  submitted w (calls (serve w o g r req)) resp.
Proof.
  intros Hr. by_wp. destruct r; try discriminate Hr; clear Hr; handlers; walk;
    (intros [= <-] || intros [=]); cbn [status json]; intros H; try discriminate H;
    unfold submitted; do 7 eexists; repeat split; reflexivity.
Qed.

(** What is broadcast is what the signer returned.  On every route, the
    payloads broadcast during a run are the payloads the signer returned
    during that run, in the same order: every signed payload is broadcast,
    and nothing else is. *)
Theorem broadcasts_are_signed (r : route) (req : request) (o : oracle) (g : number) :
  broadcasts (calls (serve w o g r req)) = signed_payloads (calls (serve w o g r req)).
Proof.
  by_wp. destruct r; handlers; walk; reflexivity.
Qed.

(** Where the funds go.  Whatever a route gives to the signer is
    addressed to the destination the route reads from the body:
    [toAddress] for [/withdraw]; [treasury || to || toAddress] for
    [/convert-earnings-to-eth] and [/withdraw-profits-to-treasury], the
    wallet's own address after these for [/fund-from-earnings];
    [to || toAddress || treasury] for [/claim-mev-profits].  Only
    [/withdraw] validates it, and [/withdraw-profits-to-treasury] and
    [/claim-mev-profits] do not ask for one: a body that names no
    destination gives them a transaction whose [to] is [undefined]. *)
Theorem signed_destination
  (r : route) (req : request) (o : oracle) (g : number) (tx : TransactionRequest) :
  In tx (signed_requests (calls (serve w o g r req))) ->
  to tx = resolved_destination w r (req_body req).
Proof.
  by_wp. destruct r; handlers; walk;
    cbn [signed_requests In]; intros Hin;
    repeat (destruct Hin as [<-|Hin]); try contradiction;
    match goal with
    | H : destructure _ = Fulfilled _ |- _ => apply destructure_Fulfilled in H; subst
    end; reflexivity.
Qed.

(** Only the transfer routes sign.  The other eight routes
    ([/sign-message], [/transaction/:hash], [/balance], [/estimate-gas],
    [/credit-earnings], [/earnings], [/status], [/health]) never give a
    transaction to the signer and never broadcast, whatever the request
    and the node. *)
Theorem only_transfer_routes_sign
  (r : route) (req : request) (o : oracle) (g : number) :
  transfer_route r = false ->
  signed_requests (calls (serve w o g r req)) = [] /\
  broadcasts (calls (serve w o g r req)) = [].
Proof.
  intros Hr. by_wp. destruct r; try discriminate Hr; clear Hr; handlers; walk;
    split; reflexivity.
Qed.


(** The error of a rejected call reaches the client as it is.  When a
    call of the run was rejected with error [e], the response is status 500
    with [e.message] as [error] ([/withdraw] adds [e.code]); on [/earnings],
    which has no [try] block, [e] leaves the handler. *)
Theorem rejection_is_reported
  (r : route) (req : request) (o : oracle) (g : number) (e : error) :
  rejection (calls (serve w o g r req)) = Some e ->
  out (serve w o g r req) =
  match r with
  | GET_earnings => Escaped e
  | POST_withdraw =>
      Responded (json 500 [("error", Str (message e)); ("code", code_value e)])
  | _ => Responded (json 500 [("error", Str (message e))])
  end.
Proof.
  by_wp. destruct r; handlers; walk;
    cbn [rejection]; intros H; try discriminate H; injection H as <-; reflexivity.
Qed.

End Outcomes.

(** *** The paths of single routes *)

Section Paths.
Context {R : Runtime}.
Variable w : string.

Local Open Scope float_scope.

(** What [/withdraw] signs has passed every check.  Whenever [/withdraw]
    gives a transaction to the signer, its destination is the string
    [toAddress] of the body, which [isAddress] accepts and which differs
    from the wallet's address also when letter case is ignored; its value
    is what [parseEther] reads in the string of [amountETH]; the balance the
    node returned, printed in ether and read back as a number, is not less
    than that string read as a number; and its gas price is not [null]. *)
Theorem withdraw_signs_checked_destination
  (req : request) (o : oracle) (g : number) (tx : TransactionRequest) :
  In tx (signed_requests (calls (serve w o g POST_withdraw req))) ->
  exists (a amount : string) (b : Z),
    get (req_body req) "toAddress" = Str a /\
    to tx = Str a /\
    isAddress (Str a) = true /\
    String.eqb (toLowerCase a) (toLowerCase w) = false /\
    ToString (get (req_body req) "amountETH") = Fulfilled amount /\
    parseEther amount = Fulfilled (value_wei tx) /\
    o 0%nat _ (getBalance w) = Fulfilled b /\
    (parseFloat_string (formatEther b) <? parseFloat_string amount) = false /\
    gasPrice tx <> None.
Proof.
  by_wp. unfold handler, withdraw. walk;
    cbn [signed_requests In]; intros Hin;
    repeat (destruct Hin as [<-|Hin]); try contradiction.
  all: match goal with
       | H : destructure _ = Fulfilled _ |- _ => apply destructure_Fulfilled in H; subst
       end.
  all: match goal with
       | H : method_toLowerCase ?v = Fulfilled _ |- _ =>
           destruct v as [| | | |a| |] eqn:Ha; try discriminate H;
           cbn [method_toLowerCase] in H; injection H as <-
       end.
  all: match goal with
       | H : _ || _ = false |- _ =>
           apply orb_false_iff in H; destruct H as [_ Tm];
           apply negb_false_iff in Tm
       end.
  all: match goal with
       | H : negb (isAddress _) = false |- _ => apply negb_false_iff in H
       end.
  all: match goal with
       | H : method_toString _ = Fulfilled ?s |- _ =>
           rewrite (method_toString_truthy _ Tm) in H;
           exists a, s
       end.
  all: match goal with
       | H : ToString _ = Fulfilled _, P : parseFloat _ = Fulfilled _ |- _ =>
           rewrite (parseFloat_ToString _ H) in P; injection P as <-
       end.
  all: match goal with
       | H : _ _ _ (getBalance _) = Fulfilled ?b |- _ => exists b
       end.
  all: match goal with
       | H : formatUnits_gwei ?p = Fulfilled _ |- _ =>
           assert (p <> None) by (destruct p; [discriminate | discriminate H])
       end.
  all: repeat split; auto.
Qed.

(** The presence check of [/withdraw].  A body that lacks [toAddress] or
    [amountETH], or holds a falsy one (an empty string, 0, [null],
    [false]), is answered 400 "Missing parameters" before any call; when
    [req.body] is [undefined] or [null], destructuring throws inside the
    [try] block and the answer is 500, with the message of the
    [TypeError] and no [code]. *)
Theorem withdraw_presence_check (o : oracle) (g : number) :
  (forall (req : request) (b : string -> value),
      destructure (req_body req) = Fulfilled b ->
      truthy (b "toAddress") && truthy (b "amountETH") = false ->
      out (serve w o g POST_withdraw req) =
      Responded (json 400 [("error", Str "Missing parameters")]) /\
      calls (serve w o g POST_withdraw req) = []) /\
  (forall (req : request) (e : error),
      destructure (req_body req) = Rejected e ->
      out (serve w o g POST_withdraw req) =
      Responded (json 500 [("error", Str (message e)); ("code", code_value e)]) /\
      calls (serve w o g POST_withdraw req) = []).
Proof.
  split.
  - intros req b Hb Hm.
    assert (Ht : negb (truthy (b "toAddress")) || negb (truthy (b "amountETH")) = true).
    { rewrite <- negb_andb, Hm. reflexivity. }
    by_wp. handlers. walk. split; reflexivity.
  - intros req e He. by_wp. handlers. walk. split; reflexivity.
Qed.

(** An amount that is not a number is not stopped by the balance check,
    because no number is less than [NaN].  [/withdraw] with an [amountETH]
    that [parseFloat] reads as [NaN], and [/convert-earnings-to-eth] with a
    falsy [amountETH] and an [amountUSD] read as [NaN], both go past the
    check, query the fee data and the pending nonce, and fail only when
    [parseEther] rejects the amount: status 500 after three calls, not
    400 after one. *)
Theorem unreadable_amount_passes_balance_check
  (req : request) (o : oracle) (g : number) (b : string -> value)
  (bal : Z) (fd : FeeData) (n : number) :
  destructure (req_body req) = Fulfilled b ->
  o 0%nat _ (getBalance w) = Fulfilled bal ->
  o 1%nat _ getFeeData = Fulfilled fd ->
  o 2%nat _ (getTransactionCount w (Some "pending")) = Fulfilled n ->
  (forall (a amount : string) (e : error),
      b "toAddress" = Str a ->
      truthy (Str a) = true ->
      isAddress (Str a) = true ->
      String.eqb (toLowerCase a) (toLowerCase w) = false ->
      truthy (b "amountETH") = true ->
      ToString (b "amountETH") = Fulfilled amount ->
      PrimFloat.is_nan (parseFloat_string amount) = true ->
      parseEther amount = Rejected e ->
      out (serve w o g POST_withdraw req) =
      Responded (json 500 [("error", Str (message e)); ("code", code_value e)]) /\
      calls (serve w o g POST_withdraw req) =
      [Entry (getBalance w) (Fulfilled bal);
       Entry getFeeData (Fulfilled fd);
       Entry (getTransactionCount w (Some "pending")) (Fulfilled n)]) /\
  (forall (eth usd : number) (e : error),
      truthy (or (or (b "treasury") (b "to")) (b "toAddress")) = true ->
      parseFloat (b "amountETH") = Fulfilled eth ->
      number_truthy eth = false ->
      parseFloat (b "amountUSD") = Fulfilled usd ->
      PrimFloat.is_nan usd = true ->
      parseEther (number_toString (usd / 3450)) = Rejected e ->
      out (serve w o g POST_convert_earnings_to_eth req) =
      Responded (json 500 [("error", Str (message e))]) /\
      calls (serve w o g POST_convert_earnings_to_eth req) =
      [Entry (getBalance w) (Fulfilled bal);
       Entry getFeeData (Fulfilled fd);
       Entry (getTransactionCount w (Some "pending")) (Fulfilled n)]).
Proof.
  intros Hb Ho Hfd Hn. split.
  - intros a amount e Ha Ta Ia Na Tm Hs Hnan He.
    pose proof (@parseFloat_ToString _ _ _ Hs) as Hp.
    pose proof (@ltb_nan (parseFloat_string (formatEther bal)) _
                         (@is_nan_spec _ Hnan)) as Hlt.
    pose proof (@method_toString_truthy _ _ Tm) as Hm. rewrite Hs in Hm.
    assert (Hl : method_toLowerCase (Str a) = Fulfilled (toLowerCase a)) by reflexivity.
    by_wp. handlers. walk. split; reflexivity.
  - intros eth usd e Hd Heth Hf Husd Hnan He.
    pose proof (@ltb_nan (parseFloat_string (formatEther bal)) _
                         (@nan_div_add _ 3450 0.002 (@is_nan_spec _ Hnan))) as Hlt.
    by_wp. handlers. walk. split; reflexivity.
Qed.

(** [/sign-message] signs whatever the body holds under [message], with no
    check: the one call of the run is [signMessage] on that value, absent
    or not.  When the signer answers, the response echoes the value and
    carries the signature and the wallet's address; when it refuses, the
    response is 500 with the error's message. *)
Theorem sign_message_signs_anything
  (req : request) (o : oracle) (g : number) (b : string -> value) :
  destructure (req_body req) = Fulfilled b ->
  calls (serve w o g POST_sign_message req) =
  [Entry (signMessage (b "message")) (o 0%nat _ (signMessage (b "message")))] /\
  out (serve w o g POST_sign_message req) =
  match o 0%nat _ (signMessage (b "message")) with
  | Fulfilled signature =>
      Responded (json 200 [("message", b "message");
                           ("signature", Str signature);
                           ("signer", Str w)])
  | Rejected e => Responded (json 500 [("error", Str (message e))])
  end.
Proof.
  intros Hb. by_wp. handlers. walk; split; reflexivity.
Qed.

(** [/transaction/:hash].  A hash the node knows nothing about is
    answered with status 200 and [{transaction: null, receipt: null}],
    after the two lookups.  When the node has a receipt, a third call asks
    for its confirmations, and the response carries the receipt's status,
    block and gas used with that count, whether or not the transaction
    itself was found. *)
Theorem transaction_lookup :
  (forall (req : request) (o : oracle) (g : number),
      o 0%nat _ (getTransaction (req_hash req)) = Fulfilled None ->
      o 1%nat _ (getTransactionReceipt (req_hash req)) = Fulfilled None ->
      out (serve w o g GET_transaction req) =
      Responded (json 200 [("transaction", Null); ("receipt", Null)]) /\
      calls (serve w o g GET_transaction req) =
      [Entry (getTransaction (req_hash req)) (Fulfilled None);
       Entry (getTransactionReceipt (req_hash req)) (Fulfilled None)]) /\
  (forall (req : request) (o : oracle) (g : number)
          (tx : option TransactionResponse) (rc : TransactionReceipt) (n : number),
      o 0%nat _ (getTransaction (req_hash req)) = Fulfilled tx ->
      o 1%nat _ (getTransactionReceipt (req_hash req)) = Fulfilled (Some rc) ->
      o 2%nat _ (confirmations rc) = Fulfilled n ->
      (exists resp : response,
          out (serve w o g GET_transaction req) = Responded resp /\
          status resp = 200%Z /\
          assoc "receipt" (body resp) =
          Obj [("status", rc_status rc);
               ("blockNumber", Num (rc_blockNumber rc));
               ("gasUsed", Str (bigint_toString (rc_gasUsed rc)));
               ("confirmations", Num n)]) /\
      calls (serve w o g GET_transaction req) =
      [Entry (getTransaction (req_hash req)) (Fulfilled tx);
       Entry (getTransactionReceipt (req_hash req)) (Fulfilled (Some rc));
       Entry (confirmations rc) (Fulfilled n)]).
Proof.
  split.
  - intros req o g Ht Hr. by_wp. handlers. walk. split; reflexivity.
  - intros req o g tx rc n Ht Hr Hn. by_wp. handlers. walk.
    split; [|reflexivity]. eexists. repeat split.
Qed.

(** [/balance].  When the node answers the three queries (the balance,
    the nonce at the default block tag, not the pending one, and the fee
    data), the response reports the wallet's address, the balance printed
    in ether, the nonce and the gas price printed in gwei; on a network
    whose fee data has no gas price the response is 500, after the same
    three calls. *)
Theorem balance_report
  (req : request) (o : oracle) (g : number) (b : Z) (n : number) (fd : FeeData) :
  o 0%nat _ (getBalance w) = Fulfilled b ->
  o 1%nat _ (getTransactionCount w None) = Fulfilled n ->
  o 2%nat _ getFeeData = Fulfilled fd ->
  calls (serve w o g GET_balance req) =
  [Entry (getBalance w) (Fulfilled b);
   Entry (getTransactionCount w None) (Fulfilled n);
   Entry getFeeData (Fulfilled fd)] /\
  match fee_gasPrice fd with
  | Some gp =>
      out (serve w o g GET_balance req) =
      Responded (json 200 [("address", Str w);
                           ("balance", Str (formatEther b));
                           ("nonce", Num n);
                           ("gasPrice", Str (formatGwei gp ++ " gwei"))])
  | None =>
      exists m : string,
        out (serve w o g GET_balance req) = Responded (json 500 [("error", Str m)])
  end.
Proof.
  intros Hb Hn Hfd. destruct (fee_gasPrice fd) as [gp|] eqn:Hgp;
    by_wp; handlers; walk;
    (split; [reflexivity|]); [reflexivity | eexists; reflexivity].
Qed.

(** [/estimate-gas].  A body without [amountETH] (or with [null]) is
    answered 500 before any call, since [amountETH.toString()] throws: the
    route has no presence check.  Otherwise the estimate is asked for a
    transfer from the wallet to [toAddress], unchecked, of the value
    [parseEther] reads; with the estimate and a gas price the response
    gives the gas limit, the gas price in gwei, their product in ether, and
    that cost in dollars at 3450 dollars the ether, with two decimals. *)
Theorem estimate_gas_report (o : oracle) (g : number) :
  (forall (req : request) (b : string -> value),
      destructure (req_body req) = Fulfilled b ->
      b "amountETH" = Undefined \/ b "amountETH" = Null ->
      (exists m : string,
          out (serve w o g POST_estimate_gas req) =
          Responded (json 500 [("error", Str m)])) /\
      calls (serve w o g POST_estimate_gas req) = []) /\
  (forall (req : request) (b : string -> value)
          (amount : string) (v gas gp : Z) (fd : FeeData),
      destructure (req_body req) = Fulfilled b ->
      method_toString (b "amountETH") = Fulfilled amount ->
      parseEther amount = Fulfilled v ->
      o 0%nat _ (estimateGas {| est_from := w; est_to := b "toAddress"; est_value := v |})
      = Fulfilled gas ->
      o 1%nat _ getFeeData = Fulfilled fd ->
      fee_gasPrice fd = Some gp ->
      out (serve w o g POST_estimate_gas req) =
      Responded
        (json 200 [("gasLimit", Str (bigint_toString gas));
                   ("gasPrice", Str (formatGwei gp ++ " gwei"));
                   ("totalCost", Str (formatEther (gas * gp) ++ " ETH"));
                   ("totalCostUSD",
                    Str (number_toFixed2
                           (parseFloat_string (formatEther (gas * gp)) * 3450)))]) /\
      calls (serve w o g POST_estimate_gas req) =
      [Entry (estimateGas {| est_from := w; est_to := b "toAddress"; est_value := v |})
             (Fulfilled gas);
       Entry getFeeData (Fulfilled fd)]).
Proof.
  split.
  - intros req b Hb Hm.
    assert (He : exists e, method_toString (b "amountETH") = Rejected e)
      by (destruct Hm as [Hm|Hm]; rewrite Hm; eexists; reflexivity).
    destruct He as [e He].
    by_wp. handlers. walk. split; [eexists; reflexivity | reflexivity].
  - intros req b amount v gas gp fd Hb Hm Hv Hg Hfd Hgp.
    by_wp. handlers. walk. split; reflexivity.
Qed.

(** [/convert-earnings-to-eth] is the one treasury endpoint that asks for
    a destination: when the body names none, under [treasury], [to] or
    [toAddress], and its amounts can be read, the answer is 400 "Missing
    destination address", and the node is not called. *)
Theorem convert_missing_destination
  (req : request) (o : oracle) (g : number) (b : string -> value) (eth usd : number) :
  destructure (req_body req) = Fulfilled b ->
  parseFloat (b "amountETH") = Fulfilled eth ->
  parseFloat (b "amountUSD") = Fulfilled usd ->
  truthy (or (or (b "treasury") (b "to")) (b "toAddress")) = false ->
  out (serve w o g POST_convert_earnings_to_eth req) =
  Responded (json 400 [("error", Str "Missing destination address")]) /\
  calls (serve w o g POST_convert_earnings_to_eth req) = [].
Proof.
  intros Hb He Hu Hd. by_wp. handlers. walk; split; reflexivity.
Qed.

(** The balance check of the treasury endpoints.  For a request with an
    [amountETH] that reads as a number other than 0 and without a
    [percentage], when the balance read as a number is less than the amount
    plus the margin of 0.002, each of the four endpoints answers 400 after
    the balance query alone ([/convert-earnings-to-eth] when a destination
    is named): the conversion reports the balance and the amount required,
    the funding reports the balance, the other two only the error. *)
Theorem treasury_insufficient_balance
  (req : request) (o : oracle) (g : number) (b : string -> value)
  (eth : number) (bal : Z) :
  destructure (req_body req) = Fulfilled b ->
  parseFloat (b "amountETH") = Fulfilled eth ->
  number_truthy eth = true ->
  truthy (b "percentage") = false ->
  o 0%nat _ (getBalance w) = Fulfilled bal ->
  (parseFloat_string (formatEther bal) <? eth + 0.002) = true ->
  (truthy (or (or (b "treasury") (b "to")) (b "toAddress")) = true ->
   out (serve w o g POST_convert_earnings_to_eth req) =
   Responded (json 400 [("error", Str "Insufficient backend balance for conversion");
                        ("balance", Num (parseFloat_string (formatEther bal)));
                        ("required", Num (eth + 0.002))]) /\
   calls (serve w o g POST_convert_earnings_to_eth req) =
   [Entry (getBalance w) (Fulfilled bal)]) /\
  (out (serve w o g POST_fund_from_earnings req) =
   Responded (json 400 [("error", Str "Insufficient backend balance");
                        ("balance", Num (parseFloat_string (formatEther bal)))]) /\
   calls (serve w o g POST_fund_from_earnings req) =
   [Entry (getBalance w) (Fulfilled bal)]) /\
  (out (serve w o g POST_withdraw_profits_to_treasury req) =
   Responded (json 400 [("error", Str "Insufficient balance")]) /\
   calls (serve w o g POST_withdraw_profits_to_treasury req) =
   [Entry (getBalance w) (Fulfilled bal)]) /\
  (out (serve w o g POST_claim_mev_profits req) =
   Responded (json 400 [("error", Str "Insufficient balance")]) /\
   calls (serve w o g POST_claim_mev_profits req) =
   [Entry (getBalance w) (Fulfilled bal)]).
Proof.
  intros Hb He Ht Hp Ho Hlt.
  split; [intros Hd|split; [|split]]; by_wp; handlers; unfold number_or; walk;
    split; reflexivity.
Qed.

(** The percentage of [/withdraw-profits-to-treasury].  With a truthy
    [percentage] in the body, whatever the endpoint signs carries that
    share of the balance, a hundredth of their product, less 0.002: the
    [amountETH] of the body plays no part in the value. *)
Theorem percentage_of_balance
  (req : request) (o : oracle) (g : number) (b : string -> value)
  (share : number) (bal : Z) (tx : TransactionRequest) :
  destructure (req_body req) = Fulfilled b ->
  truthy (b "percentage") = true ->
  parseFloat (b "percentage") = Fulfilled share ->
  o 0%nat _ (getBalance w) = Fulfilled bal ->
  In tx (signed_requests
           (calls (serve w o g POST_withdraw_profits_to_treasury req))) ->
  parseEther (number_toString
                (parseFloat_string (formatEther bal) * share / 100 - 0.002)) =
  Fulfilled (value_wei tx).
Proof.
  intros Hb Hp Hs Ho. by_wp. unfold handler, withdraw_profits_to_treasury. walk;
    cbn [signed_requests In]; intros Hin;
    repeat (destruct Hin as [<-|Hin]); try contradiction.
  all: reflexivity.
Qed.

(** Dollars are converted at 3450 the ether.  When [amountETH] is missing,
    unreadable or 0, what [/convert-earnings-to-eth] signs carries
    [amountUSD / 3450], and what [/fund-from-earnings] signs carries the
    same, or 0.01 when that quotient is 0 or not a number. *)
Theorem amountUSD_converted_at_3450
  (req : request) (o : oracle) (g : number) (b : string -> value) (eth usd : number) :
  destructure (req_body req) = Fulfilled b ->
  parseFloat (b "amountETH") = Fulfilled eth ->
  number_truthy eth = false ->
  parseFloat (b "amountUSD") = Fulfilled usd ->
  (forall tx : TransactionRequest,
      In tx (signed_requests (calls (serve w o g POST_convert_earnings_to_eth req))) ->
      parseEther (number_toString (usd / 3450)) = Fulfilled (value_wei tx)) /\
  (forall tx : TransactionRequest,
      In tx (signed_requests (calls (serve w o g POST_fund_from_earnings req))) ->
      parseEther (number_toString (number_or (usd / 3450) 0.01)) =
      Fulfilled (value_wei tx)).
Proof.
  intros Hb He Ht Hu.
  split; intros tx; by_wp; handlers; walk;
    cbn [signed_requests In]; intros Hin;
    repeat (destruct Hin as [<-|Hin]); try contradiction; reflexivity.
Qed.

(** The counter over the lifetime of the server.  After any sequence of
    requests, on whatever nodes, [earningsBalance] is the sum, from left to
    right, of its initial value and of what each credit request credited:
    no transfer debits it, and no answer of a node reaches it. *)
Theorem earningsBalance_is_sum_of_credits (l : list arrival) (g : number) :
  serve_all w g l = fold_left credit (map credit_of l) g.
Proof.
  revert g. induction l as [|a l IH]; intros g; [reflexivity|].
  cbn [serve_all map fold_left]. rewrite IH. f_equal.
  unfold credit_of.
  destruct (route_eq_dec (route_of a) POST_credit_earnings) as [E|E].
  - rewrite E. apply credit_earnings_credits.
  - unfold serve. rewrite run_read_only by (apply other_routes_read_only, E).
    destruct (route_of a); try reflexivity. contradiction.
Qed.

End Paths.

(** ** Runs on the reference runtime *)

Section Runs.
Import Reference Scenario.

Local Open Scope float_scope.


(** A destination that is not an address, with an amount: "Invalid
    address", and no call. *)
Lemma withdraw_invalid_address_witness :
  serve wallet (node_with ether) 0 POST_withdraw
        (post [("toAddress", Str "0x123"); ("amountETH", Str "1.0")]) =
  Final (Responded (json 400 [("error", Str "Invalid address")])) 0 [].
Proof.
  exact (@withdraw_invalid_address runtime wallet (node_with ether) 0
           (post [("toAddress", Str "0x123"); ("amountETH", Str "1.0")]) "0x123"
           eq_refl eq_refl).
Defined.

(** C4 fails as it is stated.  The empty string is not an address, and a
    request whose destination is the empty string is answered by the
    presence check: "Missing parameters", not "Invalid address".  So is a
    request with a malformed destination and no amount. *)
Lemma withdraw_empty_destination :
  isAddress (Str "") = false /\
  serve wallet (node_with ether) 0 POST_withdraw
        (post [("toAddress", Str ""); ("amountETH", Str "1.0")]) =
  Final (Responded (json 400 [("error", Str "Missing parameters")])) 0 [] /\
  isAddress (Str "0x123") = false /\
  serve wallet (node_with ether) 0 POST_withdraw (post [("toAddress", Str "0x123")]) =
  Final (Responded (json 400 [("error", Str "Missing parameters")])) 0 [].
Proof. repeat split. Qed.

(** C3 fails as it is stated.  A request to the wallet's own address that
    carries no amount, or the amount 0, is answered by the presence check:
    "Missing parameters", not "Cannot send to backend wallet". *)
Lemma withdraw_own_address_without_amount :
  serve wallet (node_with ether) 0 POST_withdraw (post [("toAddress", Str wallet)]) =
  Final (Responded (json 400 [("error", Str "Missing parameters")])) 0 [] /\
  serve wallet (node_with ether) 0 POST_withdraw
        (post [("toAddress", Str wallet); ("amountETH", Num 0)]) =
  Final (Responded (json 400 [("error", Str "Missing parameters")])) 0 [].
Proof. split; reflexivity. Qed.

(** The scenario of the specification: the wallet's own address, amount
    1. *)
Lemma withdraw_self_transfer_rejected_witness :
  out (serve wallet (node_with ether) 0 POST_withdraw
             (post [("toAddress", Str wallet); ("amountETH", Num 1)])) =
  Responded (json 400 [("error", Str "Cannot send to backend wallet")]) /\
  calls (serve wallet (node_with ether) 0 POST_withdraw
               (post [("toAddress", Str wallet); ("amountETH", Num 1)])) = [].
Proof.
  destruct (@withdraw_self_transfer_rejected runtime wallet (node_with ether) 0
              (post [("toAddress", Str wallet); ("amountETH", Num 1)])
              eq_refl eq_refl eq_refl eq_refl) as (Hout & Hcalls & _).
  split; [exact Hout | exact Hcalls].
Defined.

(** The scenario of the specification: a balance of 0.5 ether, amount
    "1.0". *)
Lemma withdraw_insufficient_balance_witness :
  out (serve wallet (node_with 500000000000000000) 0 POST_withdraw
             (post [("toAddress", Str treasury); ("amountETH", Str "1.0")])) =
  Responded (json 400 [("error", Str "Insufficient backend balance");
                       ("balance", Str "0.5")]) /\
  broadcasts (calls (serve wallet (node_with 500000000000000000) 0 POST_withdraw
                           (post [("toAddress", Str treasury); ("amountETH", Str "1.0")])))
  = [].
Proof.
  destruct (@withdraw_insufficient_balance runtime wallet (node_with 500000000000000000) 0
              (post [("toAddress", Str treasury); ("amountETH", Str "1.0")])
              treasury 500000000000000000%Z 1
              eq_refl eq_refl eq_refl eq_refl eq_refl eq_refl eq_refl eq_refl)
    as (Hout & _ & _ & Hb).
  split; [exact Hout | exact Hb].
Defined.

(** C2 fails as it is stated.  With a balance one wei short of one ether
    and an amount of "1", the balance is less than the amount, but both
    are read as the number 1: the check passes, and an intent of one ether
    is signed and broadcast.  And a request to the wallet's own address
    is answered by the self-transfer check, whatever the balance. *)
Lemma withdraw_balance_check_rounds :
  (ether - 1 < ether)%Z /\
  formatEther (ether - 1) = "0.999999999999999999"%string /\
  parseFloat_string "0.999999999999999999" = 1 /\
  parseFloat_string "1" = 1 /\
  parseEther "1" = Fulfilled ether /\
  option_map status
    (response_of (serve wallet (node_with (ether - 1)) 0 POST_withdraw
                        (post [("toAddress", Str treasury); ("amountETH", Str "1")])))
  = Some 200%Z /\
  map value_wei
    (signed_requests
       (calls (serve wallet (node_with (ether - 1)) 0 POST_withdraw
                     (post [("toAddress", Str treasury); ("amountETH", Str "1")]))))
  = [ether] /\
  broadcasts (calls (serve wallet (node_with (ether - 1)) 0 POST_withdraw
                           (post [("toAddress", Str treasury); ("amountETH", Str "1")])))
  = ["0xsigned"%string] /\
  response_of (serve wallet (node_with 0) 0 POST_withdraw
                     (post [("toAddress", Str wallet); ("amountETH", Str "1")]))
  = Some (json 400 [("error", Str "Cannot send to backend wallet")]).
Proof. vm_compute. repeat split. Qed.




(** No destination in the body: the intent goes to the wallet itself. *)
Lemma fund_from_earnings_defaults_to_wallet_witness :
  option_map status
    (response_of (serve wallet (node_with ether) 0 POST_fund_from_earnings (post [])))
  = Some 200%Z /\
  map to (signed_requests
            (calls (serve wallet (node_with ether) 0 POST_fund_from_earnings (post []))))
  = [Str wallet] /\
  broadcasts (calls (serve wallet (node_with ether) 0 POST_fund_from_earnings (post [])))
  = ["0xsigned"%string].
Proof.
  destruct (@fund_from_earnings_defaults_to_wallet runtime wallet (node_with ether) 0
              (post []) [] ether nan nan eq_refl eq_refl eq_refl eq_refl)
    as [_ Hrun].
  rewrite (Hrun eq_refl eq_refl eq_refl eq_refl
                {| fee_gasPrice := Some 30000000000%Z |} 7 10000000000000000%Z
                "0xsigned"%string _ _ eq_refl eq_refl eq_refl eq_refl eq_refl eq_refl).
  repeat split.
Defined.

(** No amount in the body: 0.01 ether, from both endpoints. *)
Lemma default_amount_witness :
  map value_wei
    (signed_requests
       (calls (serve wallet (node_with ether) 0 POST_withdraw_profits_to_treasury
                     (post [("to", Str treasury)]))))
  = [10000000000000000%Z] /\
  map value_wei
    (signed_requests
       (calls (serve wallet (node_with ether) 0 POST_claim_mev_profits
                     (post [("to", Str treasury)]))))
  = [10000000000000000%Z].
Proof.
  destruct (@default_amount runtime wallet (node_with ether) 0
              (post [("to", Str treasury)]) [("to", Str treasury)] ether nan
              eq_refl eq_refl eq_refl eq_refl eq_refl eq_refl eq_refl
              {| fee_gasPrice := Some 30000000000%Z |} 7 "0xsigned"%string _ _
              eq_refl eq_refl eq_refl eq_refl) as [Hprofits Hclaim].
  rewrite (Hprofits eq_refl eq_refl), (Hclaim eq_refl).
  split; reflexivity.
Defined.

(** An amount that is missing, unparsable or zero is read as [NaN] or
    as 0. *)
Example falsy_amounts :
  map (fun v => match parseFloat v with
                | Fulfilled n => Some (number_truthy n)
                | Rejected _ => None
                end)
      [Undefined; Null; Str "abc"; Str ""; Str "0"; Num 0; Num (-0); Str "0.0"]
  = [Some false; Some false; Some false; Some false;
     Some false; Some false; Some false; Some false].
Proof. vm_compute. reflexivity. Qed.

(** C5 fails as it is stated: crediting -5 to the initial counter leaves
    it at -5. *)
Lemma credit_negative_amount :
  serve wallet (node_with ether) earningsBalance_initial POST_credit_earnings
        (post [("amountUSD", Num (-5)); ("source", Str "refund")]) =
  Final (Responded (json 200 [("success", Bool true); ("newBalance", Num (-5))])) (-5) [] /\
  nonneg (-5) = false.
Proof. vm_compute. split; reflexivity. Qed.

(** Credits of 50 and of an unparsable amount around a withdrawal. *)
Lemma earningsBalance_only_credited_witness :
  nonneg
    (serve_all wallet earningsBalance_initial
       [{| node_of := node_with ether;
           route_of := POST_credit_earnings;
           request_of := post [("amountUSD", Num 50)] |};
        {| node_of := node_with ether;
           route_of := POST_withdraw;
           request_of := post [("toAddress", Str treasury); ("amountETH", Str "0.5")] |};
        {| node_of := node_with ether;
           route_of := POST_credit_earnings;
           request_of := post [("amountUSD", Str "abc")] |}]) = true.
Proof.
  destruct (@earningsBalance_only_credited runtime wallet) as (_ & _ & _ & Hall).
  apply Hall.
  intros a [<-|[<-|[<-|[]]]] Hr amount Hc; try discriminate Hr;
    vm_compute in Hc; injection Hc as <-; reflexivity.
Defined.


(** [/earnings] while the node cannot be reached. *)
Lemma earnings_error_escapes_witness :
  out (serve wallet unreachable 75 GET_earnings (post [])) =
  Escaped (Error "could not detect network" (Some "NETWORK_ERROR")).
Proof.
  rewrite (@earnings_error_escapes runtime wallet unreachable 75 (post [])
             (Error "could not detect network" (Some "NETWORK_ERROR")) eq_refl).
  reflexivity.
Defined.

(** [/claim-mev-profits] with an amount that has no string conversion:
    the body [{"amountETH": {"toString": 1}}]. *)
Lemma claim_mev_profits_error_escapes_witness :
  serve wallet (node_with ether) 0 POST_claim_mev_profits
        (post [("amountETH", Obj [("toString", Num 1)])]) =
  Final (Escaped (TypeError "Cannot convert object to primitive value")) 0 [].
Proof.
  exact (@claim_mev_profits_error_escapes runtime wallet (node_with ether) 0
           (post [("amountETH", Obj [("toString", Num 1)])]) _ _ eq_refl eq_refl).
Defined.

(** What [/withdraw] signs in the transfer of one ether. *)
Lemma signed_intents_are_plain_transfers_witness :
  gasLimit {| to := Str treasury;
              value_wei := ether;
              nonce := 7;
              gasLimit := 21000;
              gasPrice := Some 30000000000%Z;
              chainId := 1 |} = 21000 /\
  chainId {| to := Str treasury;
             value_wei := ether;
             nonce := 7;
             gasLimit := 21000;
             gasPrice := Some 30000000000%Z;
             chainId := 1 |} = 1.
Proof.
  apply (@signed_intents_are_plain_transfers runtime wallet POST_withdraw
           (post [("toAddress", Str treasury); ("amountETH", Str "1.0")])
           (node_with (2 * ether)) 0).
  vm_compute. left. reflexivity.
Defined.

(** Every guarded route answers on a node that cannot be reached. *)
Lemma guarded_routes_respond_witness :
  exists r : response,
    out (serve wallet unreachable 0 POST_withdraw
               (post [("toAddress", Str treasury); ("amountETH", Str "1.0")])) =
    Responded r.
Proof.
  apply (@guarded_routes_respond runtime wallet POST_withdraw
           (post [("toAddress", Str treasury); ("amountETH", Str "1.0")])).
  - discriminate.
  - discriminate.
  - discriminate.
Defined.

End Runs.

(** ** More runs on the reference runtime *)

Section Examples.
Import Reference Scenario Cases.

Local Open Scope float_scope.

(** A withdrawal of one ether from half an ether: refused after the
    balance query. *)
Lemma refusal_precedes_signing_witness :
  signed_requests
    (calls (serve wallet half_funded 0 POST_withdraw
                  (post [("toAddress", Str treasury); ("amountETH", Str "1.0")]))) = [] /\
  broadcasts
    (calls (serve wallet half_funded 0 POST_withdraw
                  (post [("toAddress", Str treasury); ("amountETH", Str "1.0")]))) = [] /\
  (calls (serve wallet half_funded 0 POST_withdraw
                (post [("toAddress", Str treasury); ("amountETH", Str "1.0")])) = [] \/
   exists b : Z,
     calls (serve wallet half_funded 0 POST_withdraw
                  (post [("toAddress", Str treasury); ("amountETH", Str "1.0")])) =
     [Entry (getBalance wallet) (Fulfilled b)]).
Proof.
  exact (@refusal_precedes_signing runtime wallet POST_withdraw
           (post [("toAddress", Str treasury); ("amountETH", Str "1.0")])
           half_funded 0
           (json 400 [("error", Str "Insufficient backend balance");
                      ("balance", Str "0.5")])
           eq_refl eq_refl).
Defined.

(** A hash the node does not know: status 200. *)
Lemma response_statuses_witness :
  status (json 200 [("transaction", Null); ("receipt", Null)]) = 200%Z \/
  status (json 200 [("transaction", Null); ("receipt", Null)]) = 400%Z \/
  status (json 200 [("transaction", Null); ("receipt", Null)]) = 500%Z.
Proof.
  exact (@response_statuses runtime wallet GET_transaction no_body (node_with ether) 0
           (json 200 [("transaction", Null); ("receipt", Null)]) eq_refl).
Defined.

(** A claim of the default amount. *)
Lemma success_means_confirmed_witness :
  submitted wallet
    (calls (serve wallet (node_with ether) 0 POST_claim_mev_profits
                  (post [("to", Str treasury)])))
    (json 200 [("success", Bool true);
               ("txHash", Str "0xhash:0xsigned");
               ("amount", Num 0.01);
               ("blockNumber", Num 100)]).
Proof.
  exact (@success_means_confirmed runtime wallet POST_claim_mev_profits
           (post [("to", Str treasury)]) (node_with ether) 0
           (json 200 [("success", Bool true);
                      ("txHash", Str "0xhash:0xsigned");
                      ("amount", Num 0.01);
                      ("blockNumber", Num 100)])
           eq_refl eq_refl eq_refl).
Defined.

(** A claim without a destination: the transaction signed has none. *)
Lemma signed_destination_witness :
  to (intent Undefined 10000000000000000) =
  resolved_destination wallet POST_claim_mev_profits (req_body (post [])).
Proof.
  apply (@signed_destination runtime wallet POST_claim_mev_profits (post [])
           (node_with ether) 0 (intent Undefined 10000000000000000)).
  vm_compute. left. reflexivity.
Defined.

(** [/balance] signs nothing. *)
Lemma only_transfer_routes_sign_witness :
  signed_requests (calls (serve wallet (node_with ether) 0 GET_balance (post []))) = [] /\
  broadcasts (calls (serve wallet (node_with ether) 0 GET_balance (post []))) = [].
Proof.
  exact (@only_transfer_routes_sign runtime wallet GET_balance (post [])
           (node_with ether) 0 eq_refl).
Defined.

(** [/balance] while the node cannot be reached. *)
Lemma rejection_is_reported_witness :
  out (serve wallet unreachable 0 GET_balance (post [])) =
  Responded (json 500 [("error", Str "could not detect network")]).
Proof.
  exact (@rejection_is_reported runtime wallet GET_balance (post []) unreachable 0
           (Error "could not detect network" (Some "NETWORK_ERROR")) eq_refl).
Defined.

(** The transfer of one ether from a wallet that holds two. *)
Lemma withdraw_signs_checked_destination_witness :
  exists (a amount : string) (b : Z),
    get (req_body (post [("toAddress", Str treasury); ("amountETH", Str "1.0")]))
        "toAddress" = Str a /\
    to (intent (Str treasury) ether) = Str a /\
    isAddress (Str a) = true /\
    String.eqb (toLowerCase a) (toLowerCase wallet) = false /\
    ToString (get (req_body (post [("toAddress", Str treasury); ("amountETH", Str "1.0")]))
                  "amountETH") = Fulfilled amount /\
    parseEther amount = Fulfilled (value_wei (intent (Str treasury) ether)) /\
    node_with (2 * ether) 0%nat (getBalance wallet) = Fulfilled b /\
    (parseFloat_string (formatEther b) <? parseFloat_string amount) = false /\
    gasPrice (intent (Str treasury) ether) <> None.
Proof.
  apply (@withdraw_signs_checked_destination runtime wallet
           (post [("toAddress", Str treasury); ("amountETH", Str "1.0")])
           (node_with (2 * ether)) 0 (intent (Str treasury) ether)).
  vm_compute. left. reflexivity.
Defined.

(** A body without an amount, and a request whose body is [undefined]. *)
Lemma withdraw_presence_check_witness :
  out (serve wallet (node_with ether) 0 POST_withdraw (post [("toAddress", Str treasury)])) =
  Responded (json 400 [("error", Str "Missing parameters")]) /\
  out (serve wallet (node_with ether) 0 POST_withdraw no_body) =
  Responded (json 500 [("error", Str "Cannot destructure property of undefined or null");
                       ("code", Undefined)]).
Proof.
  destruct (@withdraw_presence_check runtime wallet (node_with ether) 0)
    as [Hmissing Hbody].
  split.
  - exact (proj1 (Hmissing (post [("toAddress", Str treasury)]) _ eq_refl eq_refl)).
  - exact (proj1 (Hbody no_body _ eq_refl)).
Defined.

(** The amount "abc": three calls, then 500, from both routes. *)
Lemma unreadable_amount_passes_balance_check_witness :
  out (serve wallet (node_with ether) 0 POST_withdraw
             (post [("toAddress", Str treasury); ("amountETH", Str "abc")])) =
  Responded (json 500 [("error", Str "invalid FixedNumber string value");
                       ("code", Str "INVALID_ARGUMENT")]) /\
  out (serve wallet (node_with ether) 0 POST_convert_earnings_to_eth
             (post [("toAddress", Str treasury); ("amountETH", Str "abc")])) =
  Responded (json 500 [("error", Str "invalid FixedNumber string value")]) /\
  List.length (calls (serve wallet (node_with ether) 0 POST_convert_earnings_to_eth
                       (post [("toAddress", Str treasury); ("amountETH", Str "abc")])))
  = 3%nat.
Proof.
  destruct (@unreadable_amount_passes_balance_check runtime wallet
              (post [("toAddress", Str treasury); ("amountETH", Str "abc")])
              (node_with ether) 0 _ ether {| fee_gasPrice := Some 30000000000%Z |} 7
              eq_refl eq_refl eq_refl eq_refl) as [Hwithdraw Hconvert].
  destruct (Hwithdraw treasury "abc"%string _
              eq_refl eq_refl eq_refl eq_refl eq_refl eq_refl eq_refl eq_refl)
    as [Hw _].
  destruct (Hconvert nan nan _ eq_refl eq_refl eq_refl eq_refl eq_refl eq_refl)
    as [Hc Hn].
  split; [exact Hw|]. split; [exact Hc|]. rewrite Hn. reflexivity.
Defined.

(** The message "hello". *)
Lemma sign_message_signs_anything_witness :
  out (serve wallet (node_with ether) 0 POST_sign_message
             (post [("message", Str "hello")])) =
  Responded (json 200 [("message", Str "hello");
                       ("signature", Str "0xsignature");
                       ("signer", Str wallet)]).
Proof.
  exact (proj2 (@sign_message_signs_anything runtime wallet
                  (post [("message", Str "hello")]) (node_with ether) 0 _ eq_refl)).
Defined.

(** A hash the node does not know, and a node that has a receipt. *)
Lemma transaction_lookup_witness :
  out (serve wallet (node_with ether) 0 GET_transaction no_body) =
  Responded (json 200 [("transaction", Null); ("receipt", Null)]) /\
  exists resp : response,
    out (serve wallet indexed 0 GET_transaction no_body) = Responded resp /\
    status resp = 200%Z /\
    assoc "receipt" (body resp) =
    Obj [("status", Num 1);
         ("blockNumber", Num 100);
         ("gasUsed", Str "21000");
         ("confirmations", Num 12)].
Proof.
  destruct (@transaction_lookup runtime wallet) as [Hnone Hsome].
  split.
  - exact (proj1 (Hnone no_body (node_with ether) 0 eq_refl eq_refl)).
  - exact (proj1 (Hsome no_body indexed 0 _ (mined mainnet) 12
                        eq_refl eq_refl eq_refl)).
Defined.

(** A wallet with one ether, at nonce 7, gas at 30 gwei. *)
Lemma balance_report_witness :
  out (serve wallet (node_with ether) 0 GET_balance (post [])) =
  Responded (json 200 [("address", Str wallet);
                       ("balance", Str "1.0");
                       ("nonce", Num 7);
                       ("gasPrice", Str "30.0 gwei")]).
Proof.
  exact (proj2 (@balance_report runtime wallet (post []) (node_with ether) 0
                  ether 7 {| fee_gasPrice := Some 30000000000%Z |}
                  eq_refl eq_refl eq_refl)).
Defined.

(** An estimate without an amount, and one for a tenth of an ether. *)
Lemma estimate_gas_report_witness :
  calls (serve wallet (node_with ether) 0 POST_estimate_gas
               (post [("toAddress", Str treasury)])) = [] /\
  out (serve wallet (node_with ether) 0 POST_estimate_gas
             (post [("toAddress", Str treasury); ("amountETH", Str "0.1")])) =
  Responded (json 200 [("gasLimit", Str "21000");
                       ("gasPrice", Str "30.0 gwei");
                       ("totalCost", Str "0.00063 ETH");
                       ("totalCostUSD", Str "2.17")]).
Proof.
  destruct (@estimate_gas_report runtime wallet (node_with ether) 0) as [Hnone Hsome].
  split.
  - exact (proj2 (Hnone (post [("toAddress", Str treasury)]) _ eq_refl
                        (or_introl eq_refl))).
  - exact (proj1 (Hsome (post [("toAddress", Str treasury); ("amountETH", Str "0.1")]) _
                        "0.1"%string 100000000000000000%Z 21000%Z 30000000000%Z
                        {| fee_gasPrice := Some 30000000000%Z |}
                        eq_refl eq_refl eq_refl eq_refl eq_refl eq_refl)).
Defined.

(** A conversion of one ether that names no destination. *)
Lemma convert_missing_destination_witness :
  out (serve wallet (node_with ether) 0 POST_convert_earnings_to_eth
             (post [("amountETH", Str "1")])) =
  Responded (json 400 [("error", Str "Missing destination address")]) /\
  calls (serve wallet (node_with ether) 0 POST_convert_earnings_to_eth
               (post [("amountETH", Str "1")])) = [].
Proof.
  exact (@convert_missing_destination runtime wallet (post [("amountETH", Str "1")])
           (node_with ether) 0 _ 1 nan eq_refl eq_refl eq_refl eq_refl).
Defined.

(** One ether asked of a wallet that holds half an ether. *)
Lemma treasury_insufficient_balance_witness :
  map (fun r : route =>
         option_map status
           (response_of (serve wallet half_funded 0 r
                               (post [("to", Str treasury); ("amountETH", Str "1")]))))
      [POST_convert_earnings_to_eth; POST_fund_from_earnings;
       POST_withdraw_profits_to_treasury; POST_claim_mev_profits] =
  [Some 400%Z; Some 400%Z; Some 400%Z; Some 400%Z].
Proof.
  destruct (@treasury_insufficient_balance runtime wallet
              (post [("to", Str treasury); ("amountETH", Str "1")])
              half_funded 0 _ 1 500000000000000000%Z
              eq_refl eq_refl eq_refl eq_refl eq_refl eq_refl)
    as (Hconvert & (Hfund & _) & (Hprofits & _) & (Hclaim & _)).
  destruct (Hconvert eq_refl) as [Hconvert' _].
  cbn [map]. unfold response_of.
  rewrite Hconvert', Hfund, Hprofits, Hclaim. reflexivity.
Defined.

(** Half of a balance of one ether: 0.498 ether. *)
Lemma percentage_of_balance_witness :
  parseEther (number_toString (parseFloat_string (formatEther ether) * 50 / 100 - 0.002)) =
  Fulfilled (value_wei (intent (Str treasury) 498000000000000000)).
Proof.
  apply (@percentage_of_balance runtime wallet
           (post [("to", Str treasury); ("percentage", Num 50)])
           (node_with ether) 0 _ 50 ether (intent (Str treasury) 498000000000000000)
           eq_refl eq_refl eq_refl eq_refl).
  vm_compute. left. reflexivity.
Defined.

(** 3450 dollars: one ether, from both endpoints. *)
Lemma amountUSD_converted_at_3450_witness :
  parseEther (number_toString (3450 / 3450)) =
  Fulfilled (value_wei (intent (Str treasury) ether)) /\
  parseEther (number_toString (number_or (3450 / 3450) 0.01)) =
  Fulfilled (value_wei (intent (Str treasury) ether)).
Proof.
  destruct (@amountUSD_converted_at_3450 runtime wallet
              (post [("to", Str treasury); ("amountUSD", Num 3450)])
              (node_with (2 * ether)) 0 _ nan 3450
              eq_refl eq_refl eq_refl eq_refl) as [Hconvert Hfund].
  split.
  - apply (Hconvert (intent (Str treasury) ether)). vm_compute. left. reflexivity.
  - apply (Hfund (intent (Str treasury) ether)). vm_compute. left. reflexivity.
Defined.

End Examples.
